(** * FoodAIBE: the decision-and-fusion core, embedded and verified

    A shallow embedding of [api/core/router.py], [api/core/simple.py],
    [api/core/search.py], [api/core/prompt.py] and [api/core/gemini.py],
    followed by the properties of the specification that concern them.

    Conventions of the embedding:
    - a Python [str] is the list of its code points ([pystr]); literals are
      written [u "..."] and decoded from UTF-8, so the Vietnamese text of the
      source appears verbatim;
    - a Python [int] is a [Z]; [//] is [Z.div] (both round towards minus
      infinity for a positive divisor);
    - a call that may raise returns a [result];
    - collaborators (storage, vector index, generation provider, the clock)
      are parameters of the functions that use them. *)

From Stdlib Require Import ZArith NArith List String Ascii QArith Lia Bool.
From Stdlib Require Import DecimalString.
From stdpp Require Import gmap strings list.
Import ListNotations.

Local Open Scope Z_scope.

(* ===================================================================== *)
(** * Python values *)
(* ===================================================================== *)

Module Py.

(** A [str]: the sequence of its Unicode code points. *)
Abbreviation pystr := (list N).

(** UTF-8 decoding of the bytes of a literal. [need] counts the
    continuation bytes still expected, [acc] holds the bits read so far. *)
Fixpoint utf8_decode (bytes : list N) (need : nat) (acc : N) : pystr :=
  match bytes with
  | [] => []
  | b :: rest =>
      match need with
      | O =>
          if (b <? 128)%N then b :: utf8_decode rest 0 0%N
          else if (b <? 224)%N then utf8_decode rest 1 (b - 192)%N
          else if (b <? 240)%N then utf8_decode rest 2 (b - 224)%N
          else utf8_decode rest 3 (b - 240)%N
      | S O => (acc * 64 + (b - 128))%N :: utf8_decode rest 0 0%N
      | S n => utf8_decode rest n (acc * 64 + (b - 128))%N
      end
  end.

Fixpoint bytes_of (s : string) : list N :=
  match s with
  | EmptyString => []
  | String a s' => N_of_ascii a :: bytes_of s'
  end.

Definition u (s : string) : pystr := utf8_decode (bytes_of s) 0 0%N.
#[global] Arguments u : simpl never.

Definition str_eqb (a b : pystr) : bool := bool_decide (a = b).

(** [len(s)] *)
Definition len {A} (l : list A) : Z := Z.of_nat (length l).

(** [str.isspace] on one code point: the characters Unicode classes as
    whitespace (bidirectional type WS, B or S, or category Zs). *)
Definition isspace (c : N) : bool :=
  ((9 <=? c) && (c <=? 13) || (28 <=? c) && (c <=? 32)
   || (c =? 133) || (c =? 160) || (c =? 5760)
   || (8192 <=? c) && (c <=? 8202)
   || (c =? 8232) || (c =? 8233) || (c =? 8239) || (c =? 8287)
   || (c =? 12288))%N.

Fixpoint lstrip (s : pystr) : pystr :=
  match s with
  | c :: s' => if isspace c then lstrip s' else s
  | [] => []
  end.

Definition rstrip (s : pystr) : pystr := rev (lstrip (rev s)).

(** [s.strip()] *)
Definition strip (s : pystr) : pystr := rstrip (lstrip s).

(** Simple lower-case mapping of one code point, for the Latin blocks
    (Basic Latin, Latin-1 Supplement, Latin Extended-A, the two horned
    letters of Latin Extended-B and Latin Extended Additional), which hold
    every letter of the supported language. Other code points are left
    as they are. *)
Definition tolower (c : N) : N :=
  (if (65 <=? c) && (c <=? 90) then c + 32
   else if (192 <=? c) && (c <=? 222) && negb (c =? 215) then c + 32
   else if (c =? 304) then 105
   else if (c =? 376) then 255
   else if (c =? 7838) then 223
   else if ((256 <=? c) && (c <=? 311) || (330 <=? c) && (c <=? 375))
           && N.even c then c + 1
   else if ((313 <=? c) && (c <=? 328) || (377 <=? c) && (c <=? 382))
           && N.odd c then c + 1
   else if (c =? 416) || (c =? 431) then c + 1
   else if ((7680 <=? c) && (c <=? 7829) || (7840 <=? c) && (c <=? 7935))
           && N.even c then c + 1
   else c)%N.

(** [s.lower()]: per code point, except U+0130 whose lower case is the
    two code points U+0069 U+0307. *)
Definition lower (s : pystr) : pystr :=
  flat_map (fun c => if (c =? 304)%N then [105%N; 775%N] else [tolower c]) s.

(** [l[:n]] *)
Definition slice_to {A} (l : list A) (n : Z) : list A :=
  if 0 <=? n then firstn (Z.to_nat n) l
  else firstn (Z.to_nat (len l + n)) l.

(** [l[-n:]] for [n > 0] written as [slice_from l (-n)]; [l[i:]]. *)
Definition slice_from {A} (l : list A) (i : Z) : list A :=
  if 0 <=? i then skipn (Z.to_nat i) l
  else skipn (Z.to_nat (len l + i)) l.

(** [str(z)] *)
Definition str_of_Z (z : Z) : pystr :=
  u (NilZero.string_of_int (Z.to_int z)).

(** [sep.join(parts)] *)
Fixpoint join (sep : pystr) (parts : list pystr) : pystr :=
  match parts with
  | [] => []
  | [p] => p
  | p :: rest => p ++ sep ++ join sep rest
  end.

(** [enumerate(l, start)] *)
Fixpoint enumerate {A} (start : Z) (l : list A) : list (Z * A) :=
  match l with
  | [] => []
  | x :: l' => (start, x) :: enumerate (start + 1) l'
  end.

(** The newline character, for the [\n] escapes of the source. *)
Definition nl : pystr := [10%N].

(** Exceptions, by class. Every class below derives from [Exception].
    [ProviderError] stands for whatever the generation provider or a
    storage collaborator raises; it carries the class name. *)
Inductive exn : Type :=
| ValueError (msg : pystr)
| KeyError (key : pystr)
| ProviderError (class_name : pystr).

(** [type(e).__name__] *)
Definition type_name (e : exn) : pystr :=
  match e with
  | ValueError _ => u "ValueError"
  | KeyError _ => u "KeyError"
  | ProviderError n => n
  end.

(** Outcome of a call: a value, or an exception that leaves the call. *)
Inductive result (A : Type) : Type :=
| Ok (a : A)
| Raise (e : exn).
Arguments Ok {A} a.
Arguments Raise {A} e.

(** Sequencing: an exception raised by the first call leaves the whole
    computation. Written [x ← c; k] below. *)
#[global] Instance result_ret : MRet result := fun A a => Ok a.
#[global] Instance result_bind : MBind result := fun A B k r =>
  match r with
  | Ok a => k a
  | Raise e => Raise e
  end.

(** A JSON-like value as it arrives in a request body. [PyOther] is any
    value that is neither [None], a string, an integer nor a boolean
    (a list, a dict, a float); only its truth value is observed. *)
Inductive pyval : Type :=
| PyNone
| PyStr (s : pystr)
| PyInt (z : Z)
| PyBool (b : bool)
| PyOther (truth : bool).

(** [bool(v)] *)
Definition truthy (v : pyval) : bool :=
  match v with
  | PyNone => false
  | PyStr s => negb (bool_decide (s = []))
  | PyInt z => negb (z =? 0)
  | PyBool b => b
  | PyOther t => t
  end.

(** [v in (s1, s2, ...)] for a tuple of strings. *)
Definition in_strs (v : pyval) (ss : list pystr) : bool :=
  match v with
  | PyStr s => existsb (str_eqb s) ss
  | _ => false
  end.

End Py.
Import Py.


(* ===================================================================== *)
(** * Regular expressions: the fragment of [re] the source uses *)
(* ===================================================================== *)

(** The source only calls [re.search] (directly or on a compiled pattern),
    always with [re.I], on patterns built from literals, bracketed character
    sets without ranges, [.], [\s], [\d], [\.], [$], groups (capturing or
    not),
    alternation, [?] on a group and [+], [+?], [*] on a one-character item.
    The patterns are kept as the strings of the source and parsed here; the
    matcher is a backtracking matcher with the priorities of [re]: leftmost
    start, alternatives from left to right, greedy items longest first, lazy
    items shortest first. *)
Module Re.

(** An item that consumes exactly one character. *)
Inductive atom : Type :=
| AChr (c : N)              (* a literal *)
| ACls (cs : list N)        (* [...] *)
| ADot                      (* .  : anything but a newline *)
| ASpace                    (* \s *)
| ADigit.                   (* \d *)

Inductive regex : Type :=
| Eps
| One (a : atom)
| Eos                                        (* $ *)
| Seq (r1 r2 : regex)
| Alt (r1 r2 : regex)
| Grp (n : nat) (r : regex)                  (* capturing group number n *)
| Opt (r : regex)                            (* r? *)
| Rep (a : atom) (least : nat) (greedy : bool) (* a+, a+?, a*, a*? *)
| Fail.

(** ** Parsing a pattern *)

Definition special (c : N) : bool :=
  existsb (N.eqb c) [40; 41; 124; 91; 93; 92; 46; 36; 43; 42; 63]%N.

(** The characters of a bracketed set, up to the closing bracket. *)
Fixpoint p_class (s : pystr) (acc : list N) : option (list N * pystr) :=
  match s with
  | [] => None
  | 93%N :: s' => Some (rev acc, s')
  | c :: s' =>
      if existsb (N.eqb c) [92; 45; 94; 91]%N then None
      else p_class s' (c :: acc)
  end.

Definition quantify (r : regex) (least : nat) (greedy : bool)
    (rest : pystr) (n : nat) : option (regex * pystr * nat) :=
  match r with
  | One a => Some (Rep a least greedy, rest, n)
  | _ => None
  end.

(** Recursive descent; [n] is the number of the next capturing group. *)
Fixpoint p_alt (fuel : nat) (s : pystr) (n : nat)
    : option (regex * pystr * nat) :=
  match fuel with
  | O => None
  | S f =>
      match p_seq f s n with
      | Some (r1, 124%N :: s1, n1) =>
          match p_alt f s1 n1 with
          | Some (r2, s2, n2) => Some (Alt r1 r2, s2, n2)
          | None => None
          end
      | other => other
      end
  end
with p_seq (fuel : nat) (s : pystr) (n : nat)
    : option (regex * pystr * nat) :=
  match fuel with
  | O => None
  | S f =>
      match s with
      | [] => Some (Eps, s, n)
      | c :: _ =>
          if (c =? 41)%N || (c =? 124)%N then Some (Eps, s, n)
          else
            match p_quant f s n with
            | Some (r1, s1, n1) =>
                match p_seq f s1 n1 with
                | Some (Eps, s2, n2) => Some (r1, s2, n2)
                | Some (r2, s2, n2) => Some (Seq r1 r2, s2, n2)
                | None => None
                end
            | None => None
            end
      end
  end
with p_quant (fuel : nat) (s : pystr) (n : nat)
    : option (regex * pystr * nat) :=
  match fuel with
  | O => None
  | S f =>
      match p_atom f s n with
      | Some (r, 43%N :: 63%N :: s1, n1) => quantify r 1 false s1 n1
      | Some (r, 43%N :: s1, n1) => quantify r 1 true s1 n1
      | Some (r, 42%N :: 63%N :: s1, n1) => quantify r 0 false s1 n1
      | Some (r, 42%N :: s1, n1) => quantify r 0 true s1 n1
      | Some (r, 63%N :: s1, n1) => Some (Opt r, s1, n1)
      | other => other
      end
  end
with p_atom (fuel : nat) (s : pystr) (n : nat)
    : option (regex * pystr * nat) :=
  match fuel with
  | O => None
  | S f =>
      match s with
      | 40%N :: 63%N :: 58%N :: s' =>
          match p_alt f s' n with
          | Some (r, 41%N :: s1, n1) => Some (r, s1, n1)
          | _ => None
          end
      | 40%N :: s' =>
          match p_alt f s' (S n) with
          | Some (r, 41%N :: s1, n1) => Some (Grp n r, s1, n1)
          | _ => None
          end
      | 91%N :: s' =>
          match p_class s' [] with
          | Some (cs, s1) => Some (One (ACls cs), s1, n)
          | None => None
          end
      | 92%N :: 115%N :: s' => Some (One ASpace, s', n)
      | 92%N :: 100%N :: s' => Some (One ADigit, s', n)
      | 92%N :: 46%N :: s' => Some (One (AChr 46), s', n)
      | 46%N :: s' => Some (One ADot, s', n)
      | 36%N :: s' => Some (Eos, s', n)
      | c :: s' => if special c then None else Some (One (AChr c), s', n)
      | [] => None
      end
  end.

Definition parse (pattern : pystr) : option regex :=
  match p_alt (4 * length pattern + 4) pattern 1 with
  | Some (r, [], _) => Some r
  | _ => None
  end.

(** [re.compile(pattern, re.I)]. Every pattern of the source parses (see
    [patterns_parse] below); [Fail] is what is left for a string outside
    the fragment. *)
Definition compile (pattern : string) : regex :=
  match parse (u pattern) with
  | Some r => r
  | None => Fail
  end.

(** ** Matching, with [re.I] *)

(** Two characters are the same under [re.I] when their lower cases are;
    besides, [re] takes the dotless i (U+0131) for an i, the long s
    (U+017F) for an s and the Kelvin sign (U+212A) for a k. *)
Definition fold_I (c : N) : N :=
  (if c =? 305 then 105
   else if c =? 383 then 115
   else if c =? 8490 then 107
   else tolower c)%N.

Definition chr_eq_I (x c : N) : bool := (fold_I x =? fold_I c)%N.

Definition atom_match (a : atom) (c : N) : bool :=
  match a with
  | AChr x => chr_eq_I x c
  | ACls cs => existsb (fun x => chr_eq_I x c) cs
  | ADot => negb (c =? 10)%N
  | ASpace => isspace c
  | ADigit => (48 <=? c)%N && (c <=? 57)%N   (* the digits 0 to 9 *)
  end.

(** The text of each group that took part in the match. *)
Definition captures := list (nat * pystr).

Definition orelse {A} (x y : option A) : option A :=
  match x with
  | Some _ => x
  | None => y
  end.

Section Matcher.
Context {A : Type}.

(** [a+], [a*]: as many as possible first, then fewer. *)
Fixpoint rep_greedy (a : atom) (least : nat) (s : pystr)
    (k : pystr -> option A) : option A :=
  let stop := match least with O => k s | S _ => None end in
  match s with
  | c :: s' =>
      if atom_match a c
      then orelse (rep_greedy a (Nat.pred least) s' k) stop
      else stop
  | [] => stop
  end.

(** [a+?], [a*?]: as few as possible first, then more. *)
Fixpoint rep_lazy (a : atom) (least : nat) (s : pystr)
    (k : pystr -> option A) : option A :=
  let stop := match least with O => k s | S _ => None end in
  orelse stop
    match s with
    | c :: s' =>
        if atom_match a c then rep_lazy a (Nat.pred least) s' k else None
    | [] => None
    end.

(** [m r s caps k]: match [r] at the head of [s], then hand the rest of
    the text and the groups to [k]; a [None] from [k] makes the matcher
    try its next choice. *)
Fixpoint m (r : regex) (s : pystr) (caps : captures)
    (k : pystr -> captures -> option A) : option A :=
  match r with
  | Eps => k s caps
  | One a =>
      match s with
      | c :: s' => if atom_match a c then k s' caps else None
      | [] => None
      end
  | Eos =>
      match s with
      | [] => k s caps
      | [10%N] => k s caps
      | _ => None
      end
  | Seq r1 r2 => m r1 s caps (fun s1 caps1 => m r2 s1 caps1 k)
  | Alt r1 r2 => orelse (m r1 s caps k) (m r2 s caps k)
  | Grp n r1 =>
      m r1 s caps (fun s1 caps1 =>
        k s1 ((n, firstn (length s - length s1) s) :: caps1))
  | Opt r1 => orelse (m r1 s caps k) (k s caps)
  | Rep a least true => rep_greedy a least s (fun s1 => k s1 caps)
  | Rep a least false => rep_lazy a least s (fun s1 => k s1 caps)
  | Fail => None
  end.
End Matcher.

(** [re.search]: the first start position, from the left, at which the
    pattern matches. The result holds the groups of that match. *)
Fixpoint search_from (r : regex) (s : pystr) : option captures :=
  orelse (m r s [] (fun _ caps => Some caps))
    match s with
    | [] => None
    | _ :: s' => search_from r s'
    end.

Definition search (pattern : string) (s : pystr) : option captures :=
  search_from (compile pattern) s.

(** [bool(re.search(pattern, s, re.I))] *)
Definition found (pattern : string) (s : pystr) : bool :=
  match search pattern s with
  | Some _ => true
  | None => false
  end.

(** [m.group(n)], for a group that took part in the match (as groups 1
    and 2 of every pattern whose groups the source reads do). *)
Fixpoint group (caps : captures) (n : nat) : pystr :=
  match caps with
  | [] => []
  | (i, t) :: rest => if Nat.eqb i n then t else group rest n
  end.

End Re.

(* ===================================================================== *)
(** * core/router.py *)
(* ===================================================================== *)

Module QueryRouter.

(** [ModelTier = Literal["local", "gemini-flash", "gemini-pro"]]; the
    specification calls them local, light-model and heavy-model. *)
Inductive ModelTier : Type := local | gemini_flash | gemini_pro.

(** [QueryType = Literal["simple", "complex", "heavy"]] *)
Inductive QueryType : Type := simple | complex | heavy.

Record RouteDecision : Type := mkRouteDecision {
  model : ModelTier;
  max_output_tokens : Z;
  query_type : QueryType;
  reason : pystr
}.

Definition COMPLEX_PATTERNS : list string := [
  "g[aầ]n (t[oô]i|[dđ][aâ]y|nh[aấ]t)";
  "qu[aá]n (g[aầ]n|xung quanh|khu v[uự]c)";
  "t[iì]m (qu[aá]n|ch[oỗ] [aă]n|nh[aà] h[aà]ng)";
  "b[aâ]y gi[oờ] (n[eê]n|c[oó] th[eể]|mu[oố]n)";
  "(t[oố]i|tr[uư]a|s[aá]ng|chi[eề]u) (nay|h[oô]m nay|n[aà]y)";
  "l[uú]c (n[aà]y|b[aâ]y gi[oờ]|\d+h)";
  "ch[iỉ] ([dđ][uư][oờ]ng|t[oô]i|c[aá]ch [dđ]i)";
  "gan (toi|day|nhat)";
  "tim (quan|cho an)";
  "bay gio nen"
]%string.

Definition HEAVY_PATTERNS : list string := [
  "so s[aá]nh.+(v[oớ]i|v[aà]|vs).+(v[oớ]i|v[aà]|vs)";
  "(k[eế] ho[aạ]ch|l[iị]ch).+([aă]n|b[uữ]a).+(c[aả] ng[aà]y|h[oô]m nay)"
]%string.

(** [any(p.search(q) for p in patterns)] *)
Definition _match (patterns : list string) (q : pystr) : bool :=
  existsb (fun p => Re.found p q) patterns.

Definition _is_heavy (q : pystr) : bool :=
  (200 <? len q) || _match HEAVY_PATTERNS q.

Definition _is_complex (q : pystr) (has_location : bool) : bool :=
  let location_hit :=
    has_location && Re.found "g[aầ]n|xung quanh|khu v[uự]c|gan|nearby" q in
  location_hit || _match COMPLEX_PATTERNS q || (100 <? len q).

Definition route (query : pystr) (has_location : bool) : RouteDecision :=
  let q := strip query in
  if _is_heavy q then
    mkRouteDecision gemini_pro 1500 heavy (u "Query phức tạp nhiều tầng")
  else if _is_complex q has_location then
    mkRouteDecision gemini_flash 800 complex
      (u "Query location/time/đa điều kiện")
  else
    mkRouteDecision local 256 simple (u "Simple – dùng template").

Definition get_meal_time (hour : Z) : pystr :=
  if (6 <=? hour) && (hour <? 10) then u "Bữa sáng"
  else if (10 <=? hour) && (hour <? 14) then u "Bữa trưa"
  else if (14 <=? hour) && (hour <? 17) then u "Xế chiều"
  else if (17 <=? hour) && (hour <? 21) then u "Bữa tối"
  else u "Ăn đêm".

End QueryRouter.

(* ===================================================================== *)
(** * models.py: the record the core passes around *)
(* ===================================================================== *)

Module Models.

Record FoodItem : Type := mkFoodItem {
  id : Z;
  ten_quan : pystr;
  ten_mon : pystr;
  dia_chi : pystr;
  quan : pystr;
  thanh_pho : pystr;
  gia_min : Z;
  gia_max : Z;
  note : pystr
}.

(** The ids of a result list, in order. *)
Definition ids (items : list FoodItem) : list Z := id <$> items.

End Models.

(* ===================================================================== *)
(** * core/simple.py *)
(* ===================================================================== *)

Module SimpleQueryHandler.
Import Models.

(** The intent tags, which the source writes as the strings
    ["want_to_eat"], ["price_query"], ["price_compare"], ["suggest"] and
    ["unknown"]. *)
Inductive Intent : Type :=
| want_to_eat | price_query | price_compare | suggest | unknown.

(** The tuple [(intent, keyword, second_keyword)]. *)
Definition parsed : Type := Intent * pystr * option pystr.

(** [SearchFn = Callable[[str, int], Awaitable[list[FoodItem]]]]; awaiting
    it gives a list or raises. *)
Definition SearchFn : Type := pystr -> Z -> result (list FoodItem).

(** ** Intent parsers *)

Definition _try_compare (q : pystr) : option parsed :=
  match Re.search
    "so s[aá]nh\s+(.+?)\s+(?:v[aà]|v[oớ]i|vs)\s+(.+?)(?:\s|$)" q with
  | Some mt =>
      Some (price_compare, strip (Re.group mt 1),
            Some (strip (Re.group mt 2)))
  | None => None
  end.

Definition _try_price (q : pystr) : option parsed :=
  match Re.search
    "(.+?)\s+(?:gi[aá] bao nhi[eê]u|bao nhi[eê]u ti[eề]n|gi[aá] th[eế] n[aà]o)"
    q with
  | Some mt => Some (price_query, strip (Re.group mt 1), None)
  | None => None
  end.

Definition _try_want (q : pystr) : option parsed :=
  match Re.search
    ("(?:t[oô]i (?:mu[oố]n|th[iíì]ch|c[aầ]n) [aă]n"
     ++ "|cho t[oô]i [aă]n"
     ++ "|toi (?:muon|thich|can) an"
     ++ "|cho toi an)\s+(.+?)(?:\s*$|\.)")%string q with
  | Some mt => Some (want_to_eat, strip (Re.group mt 1), None)
  | None => None
  end.

Definition _try_suggest (q : pystr) : option parsed :=
  if negb (Re.found "g[oợ]i [yý]|goi y|suggest|recommend" q) then None
  else
    let mt := Re.search
      "(?:g[oợ]i [yý]|goi y|suggest)\s+(?:m[oó]n\s+)?(.+?)(?:\s|$)" q in
    Some (suggest,
          match mt with Some c => strip (Re.group c 1) | None => [] end,
          None).

(** [a or b] on an optional tuple: a tuple of three is always true. *)
Definition or_else (a : option parsed) (b : option parsed) : option parsed :=
  match a with
  | Some _ => a
  | None => b
  end.

Definition parse_intent (query : pystr) : parsed :=
  let q := strip (lower query) in
  match
    or_else (_try_compare q)
      (or_else (_try_price q)
        (or_else (_try_want q)
          (_try_suggest q)))
  with
  | Some t => t
  | None => (unknown, slice_to q 40, None)
  end.

(** ** Templates *)

Definition _fmt (mn mx : Z) : pystr :=
  if (mn <=? 1) && (mx <=? 1) then u "Chưa có giá"
  else if mn =? mx then str_of_Z (mx / 1000) ++ u "k"
  else str_of_Z (mn / 1000) ++ u "k–" ++ str_of_Z (mx / 1000) ++ u "k".

(** [r.gia_min > 1 or r.gia_max > 1] *)
Definition has_price (r : FoodItem) : bool :=
  (1 <? gia_min r) || (1 <? gia_max r).

Definition _resp_want (kw : pystr) (items : list FoodItem) : pystr :=
  match items with
  | [] => u "Chưa tìm thấy quán **" ++ kw
          ++ u "** nào. Thử từ khoá khác nhé! 🙏"
  | _ =>
      let lines :=
        map (fun ir : Z * FoodItem =>
               let (i, r) := ir in
               str_of_Z (i + 1) ++ u ". **" ++ ten_quan r ++ u "** ("
               ++ ten_mon r ++ u ")" ++ nl
               ++ u "   📍 " ++ dia_chi r ++ u ", " ++ quan r ++ nl
               ++ u "   💰 " ++ _fmt (gia_min r) (gia_max r))
            (enumerate 0 (slice_to items 5)) in
      u "Tìm được **" ++ str_of_Z (len items) ++ u " quán " ++ kw
      ++ u "** 🍽️" ++ nl ++ nl ++ join (nl ++ nl) lines
  end.

(** [min(...)] and [max(...)] of a generator: an empty one raises
    [ValueError] (the wording of its message varies with the interpreter;
    nothing here depends on it). *)
Definition py_min (l : list Z) : result Z :=
  match l with
  | [] => Raise (ValueError (u "min() arg is an empty sequence"))
  | x :: l' => Ok (fold_left Z.min l' x)
  end.

Definition py_max (l : list Z) : result Z :=
  match l with
  | [] => Raise (ValueError (u "max() arg is an empty sequence"))
  | x :: l' => Ok (fold_left Z.max l' x)
  end.

Definition _resp_price (kw : pystr) (items : list FoodItem) : result pystr :=
  let priced := slice_to (filter has_price items) 5 in
  match priced with
  | [] => Ok (u "Chưa có thông tin giá của **" ++ kw ++ u "**.")
  | _ =>
      let lines :=
        map (fun r => u "• **" ++ ten_quan r ++ u "**: "
                      ++ _fmt (gia_min r) (gia_max r) ++ u " đ") priced in
      lo ← py_min (map gia_min (filter (fun r => 1 <? gia_min r) priced));
      hi ← py_max (map gia_max (filter (fun r => 1 <? gia_max r) priced));
      Ok (u "💰 **Giá " ++ kw ++ u ":**" ++ nl ++ nl ++ join nl lines
          ++ nl ++ nl ++ u "*Dao động: " ++ _fmt lo hi ++ u " đ*")
  end.

(** The local [avg] of [_resp_compare]. The source computes in floating
    point; the embedding computes the same quotients exactly. *)
Definition avg (lst : list FoodItem) : Q :=
  Qdiv
    (fold_left Qplus
       (map (fun r => Qdiv (inject_Z (gia_min r + gia_max r)) (inject_Z 2))
            (filter has_price lst))
       (inject_Z 0))
    (inject_Z (Z.max (len lst) 1)).

(** The local [blk] of [_resp_compare]. *)
Definition blk (k : pystr) (lst : list FoodItem) : pystr :=
  match lst with
  | r :: _ => u "**" ++ k ++ u "**: " ++ _fmt (gia_min r) (gia_max r)
              ++ u " đ"
  | [] => u "**" ++ k ++ u "**: N/A"
  end.

(** The side [_resp_compare] names as cheaper, if it names one. *)
Definition winner (k1 : pystr) (i1 : list FoodItem)
    (k2 : pystr) (i2 : list FoodItem) : option pystr :=
  match i1, i2 with
  | _ :: _, _ :: _ =>
      let a1 := avg i1 in
      let a2 := avg i2 in
      Some (if negb (Qle_bool a2 a1) then k1 else k2)
  | _, _ => None
  end.

Definition _resp_compare (k1 : pystr) (i1 : list FoodItem)
    (k2 : pystr) (i2 : list FoodItem) : pystr :=
  let cmp :=
    match winner k1 i1 k2 i2 with
    | Some w => nl ++ nl ++ u "👉 **" ++ w ++ u "** thường rẻ hơn"
    | None => []
    end in
  u "💰 So sánh giá:" ++ nl ++ nl ++ blk k1 i1 ++ nl ++ blk k2 i2 ++ cmp.

Definition _resp_suggest (kw : pystr) (items : list FoodItem)
    (meal : pystr) : pystr :=
  match items with
  | [] => u "Không tìm được gợi ý phù hợp."
  | _ =>
      let lines :=
        map (fun ir : Z * FoodItem =>
               let (i, r) := ir in
               str_of_Z (i + 1) ++ u ". **" ++ ten_mon r ++ u "** – "
               ++ ten_quan r ++ u " – " ++ _fmt (gia_min r) (gia_max r)
               ++ u " đ")
            (enumerate 0 (slice_to items 3)) in
      let label := match kw with [] => [] | _ => u " " ++ kw end in
      u "🍽️ Gợi ý" ++ label ++ u " " ++ meal ++ u ":" ++ nl ++ nl
      ++ join nl lines
  end.

(** ** Response handlers *)

(** What [handle] returns: [(reply, items, was_handled)]. *)
Definition reply : Type := pystr * list FoodItem * bool.

Definition _handle_want (kw : pystr) (fn : SearchFn) : result reply :=
  items ← fn kw 10;
  Ok (_resp_want kw items, items, true).

Definition _handle_price (kw : pystr) (fn : SearchFn) : result reply :=
  items ← fn kw 8;
  text ← _resp_price kw items;
  Ok (text, items, true).

(** [asyncio.gather(fn(kw1, 5), fn(kw2, 5))]: both lookups are awaited;
    an exception of either leaves the call. *)
Definition _handle_compare (kw1 kw2 : pystr) (fn : SearchFn)
    : result reply :=
  items1 ← fn kw1 5;
  items2 ← fn kw2 5;
  Ok (_resp_compare kw1 items1 kw2 items2, items1 ++ items2, true).

Definition _handle_suggest (kw : pystr) (fn : SearchFn) (hour : Z)
    : result reply :=
  let meal := QueryRouter.get_meal_time hour in
  items ← fn (match kw with [] => meal | _ => kw end) 8;
  Ok (_resp_suggest kw items meal, items, true).

Definition handle (query : pystr) (search_fn : SearchFn) (hour : Z)
    : result reply :=
  match parse_intent query with
  | (want_to_eat, kw, _) => _handle_want kw search_fn
  | (price_query, kw, _) => _handle_price kw search_fn
  | (price_compare, kw, kw2) =>
      _handle_compare kw
        (match kw2 with Some ((_ :: _) as k) => k | _ => [] end) search_fn
  | (suggest, kw, _) => _handle_suggest kw search_fn hour
  | (unknown, _, _) => Ok ([], [], false)
  end.

End SimpleQueryHandler.

(* ===================================================================== *)
(** * core/search.py *)
(* ===================================================================== *)

Module SearchService.
Import Models.

Definition VALID_CITIES : list pystr :=
  [u "ha_noi"; u "ho_chi_minh"; u "da_nang"; u "hai_phong"; u "ha_long";
   u "thanh_hoa"].

Definition _validate_city (city : pystr) : result unit :=
  if existsb (str_eqb city) VALID_CITIES then Ok tt
  else Raise (ValueError (u "Unknown city: " ++ city)).

(** One pass of the loop of [_merge]: [seen] is the set of ids met so
    far, [merged] the list built so far. *)
Definition merge_step (st : gset Z * list FoodItem) (item : FoodItem)
    : gset Z * list FoodItem :=
  let (seen, merged) := st in
  if decide (id item ∈ seen) then st
  else ({[id item]} ∪ seen, merged ++ [item]).

Definition _merge (priority secondary : list FoodItem) (top_k : Z)
    : list FoodItem :=
  let (_, merged) := fold_left merge_step (priority ++ secondary) (∅, []) in
  slice_to merged top_k.

(** A retrieval call handed to the executor, with its arguments. *)
Inductive call : Type :=
| semantic_call (city query : pystr) (top_k : Z)   (* _run_faiss *)
| text_call (city keyword : pystr) (limit : Z).    (* _fetch_by_name *)

(** A coroutine of the service: the retrieval calls it issues, and what
    awaiting it gives. *)
Definition io (A : Type) : Type := list call * result A.

(** [asyncio.gather(a, b)]: both coroutines run, so the calls of both are
    issued; the results come back in argument order, and an exception of
    either leaves the [await]. *)
Definition gather {A B} (a : io A) (b : io B) : io (A * B) :=
  (a.1 ++ b.1,
   match a.2, b.2 with
   | Ok x, Ok y => Ok (x, y)
   | Raise e, _ => Raise e
   | _, Raise e => Raise e
   end).

Section Backends.
(** The vector index and the storage, as the two blocking helpers the
    service runs in the executor. *)
Variable _run_faiss : pystr -> pystr -> Z -> result (list FoodItem).
Variable _fetch_by_name : pystr -> pystr -> Z -> result (list FoodItem).

Definition text_search (city keyword : pystr) (limit : Z)
    : io (list FoodItem) :=
  match _validate_city city with
  | Raise e => ([], Raise e)
  | Ok _ => ([text_call city keyword limit],
             _fetch_by_name city keyword limit)
  end.

Definition semantic_search (city query : pystr) (top_k : Z)
    : io (list FoodItem) :=
  match _validate_city city with
  | Raise e => ([], Raise e)
  | Ok _ => ([semantic_call city query top_k],
             _run_faiss city query top_k)
  end.

Definition hybrid_search (city query : pystr) (top_k : Z)
    : io (list FoodItem) :=
  match _validate_city city with
  | Raise e => ([], Raise e)
  | Ok _ =>
      let both := gather (semantic_search city query top_k)
                         (text_search city query (top_k / 2)) in
      (both.1,
       match both.2 with
       | Ok (sem, txt) => Ok (_merge txt sem top_k)
       | Raise e => Raise e
       end)
  end.
End Backends.

End SearchService.

(* ===================================================================== *)
(** * core/prompt.py *)
(* ===================================================================== *)

Module PromptBuilder.
Import Models.
Import QueryRouter.

Definition MAX_HISTORY_TURNS : Z := 6.

(** One turn of the raw history: a [dict] with string keys. *)
Abbreviation turn := (gmap string pyval).

(** [m.get(key)]; also [m[key]] where the source has checked the key. *)
Definition get (m : turn) (key : string) : pyval :=
  match m !! key with
  | Some v => v
  | None => PyNone
  end.

(** A turn in the provider's format, [{"role": r, "parts": [{"text": t}]}];
    [parts] lists the texts of the parts. *)
Record Content : Type := mkContent {
  role : pyval;
  parts : list pyval
}.

Definition build_system (tier : ModelTier) (city : pystr) (hour : Z)
    (meal_time : pystr) (user_address : option pystr) : pystr :=
  let loc :=
    match user_address with
    | Some ((_ :: _) as a) => u "User ở: " ++ a ++ u "."
    | _ => u "Không có địa chỉ."
    end in
  match tier with
  | local =>
      u "AI ẩm thực – " ++ city ++ u " – " ++ str_of_Z hour ++ u "h ("
      ++ meal_time ++ u ")."
  | gemini_flash =>
      u "Bạn là trợ lý ẩm thực AI cho " ++ city ++ u ". "
      ++ u "Hiện tại: " ++ str_of_Z hour ++ u "h (" ++ meal_time ++ u "). "
      ++ loc ++ u " "
      ++ u "Trả lời ngắn gọn, chính xác, tiếng Việt."
  | gemini_pro =>
      u "Bạn là chuyên gia ẩm thực AI cho " ++ city ++ u "." ++ nl
      ++ u "Thời gian: " ++ str_of_Z hour ++ u "h (" ++ meal_time ++ u "). "
      ++ loc ++ nl
      ++ u "Tư vấn món ăn, tìm quán gần user, gợi ý phù hợp." ++ nl
      ++ u "Luôn trả lời tiếng Việt, thân thiện, cụ thể."
  end.

Definition _price_range (mn mx : Z) : pystr :=
  if (mn <=? 1) && (mx <=? 1) then []
  else u ", " ++ str_of_Z (mn / 1000) ++ u "k–" ++ str_of_Z (mx / 1000)
       ++ u "k đ".

Definition _format_item (r : FoodItem) : pystr :=
  let price := _price_range (gia_min r) (gia_max r) in
  let note_ := match note r with [] => [] | n => u ", " ++ n end in
  u "- " ++ ten_quan r ++ u " (" ++ ten_mon r ++ u ") | " ++ dia_chi r
  ++ u ", " ++ quan r ++ price ++ note_.

Definition build_food_context (items : list FoodItem) : pystr :=
  match items with
  | [] => []
  | _ => u "Dữ liệu quán ăn:" ++ nl
         ++ join nl (map _format_item (slice_to items 10))
  end.

(** [history[-MAX_HISTORY_TURNS:] if history else []] *)
Definition trim_history (history : list turn) : list turn :=
  match history with
  | [] => []
  | _ => slice_from history (- MAX_HISTORY_TURNS)
  end.

(** The condition of the comprehension of [build_history]. *)
Definition keeps (m : turn) : bool :=
  in_strs (get m "role") [u "user"; u "model"] && truthy (get m "text").

Definition build_history (raw : list turn) : list Content :=
  let trimmed := trim_history raw in
  map (fun m => mkContent (get m "role") [get m "text"])
      (filter keeps trimmed).

End PromptBuilder.

(* ===================================================================== *)
(** * core/gemini.py *)
(* ===================================================================== *)

Module GeminiService.
Import Models.
Import QueryRouter.
Import PromptBuilder.

(** A [dict] keyed by tier, as an association list. *)
Definition tier_eqb (a b : ModelTier) : bool :=
  match a, b with
  | local, local | gemini_flash, gemini_flash | gemini_pro, gemini_pro => true
  | _, _ => false
  end.

Definition tier_str (t : ModelTier) : pystr :=
  match t with
  | local => u "local"
  | gemini_flash => u "gemini-flash"
  | gemini_pro => u "gemini-pro"
  end.

(** [d[tier]]: a missing key raises [KeyError]. *)
Fixpoint getitem {V} (d : list (ModelTier * V)) (tier : ModelTier)
    : result V :=
  match d with
  | [] => Raise (KeyError (tier_str tier))
  | (k, v) :: d' => if tier_eqb k tier then Ok v else getitem d' tier
  end.

Definition _MODEL_MAP : list (ModelTier * pystr) :=
  [(gemini_flash, u "gemini-2.0-flash");
   (gemini_pro, u "gemini-2.0-flash")].

Definition _MAX_TOKENS : list (ModelTier * Z) :=
  [(gemini_flash, 800);
   (gemini_pro, 1500)].

(** [GenerationConfig(max_output_tokens=...)] *)
Record GenerationConfig : Type := mkGenerationConfig {
  max_output_tokens : Z
}.

(** [genai.GenerativeModel(model_name=..., system_instruction=...,
    generation_config=...)] *)
Record GenerativeModel : Type := mkGenerativeModel {
  model_name : pystr;
  system_instruction : pystr;
  generation_config : GenerationConfig
}.

(** What iterating a streamed response does: it yields the chunks of
    [chunks] (their [.text]), then ends, or raises [e] when [failure] is
    [Some e]. A failure of the call itself is a stream with no chunk. *)
Record stream_script : Type := mkScript {
  chunks : list pystr;
  failure : option exn
}.

(** The entry the worker puts on the queue: a text, or the [DONE]
    sentinel. *)
Inductive item : Type :=
| Text (s : pystr)
| DONE.

(** Where the worker thread stands. *)
Inductive worker : Type :=
| W_start                                         (* entering [try] *)
| W_iter (rest : list pystr) (failure : option exn) (* in the [for] loop *)
| W_except (e : exn)                              (* in [except] *)
| W_finally                                       (* in [finally] *)
| W_exit.

(** The two threads and the queue between them. *)
Record state : Type := mkState {
  wk : worker;
  queue : list item;
  yielded : list pystr;       (* what the generator has yielded so far *)
  finished : bool             (* the generator has left its loop *)
}.

Inductive thread : Type := Worker | Consumer.

#[global] Instance thread_eq_dec : EqDecision thread.
Proof. solve_decision. Defined.

Definition apology (e : exn) : pystr :=
  u "Xin lỗi, AI đang gặp sự cố. (" ++ type_name e ++ u ")".

Definition error_fragment (e : exn) : pystr :=
  nl ++ u "[Lỗi: " ++ type_name e ++ u "]".
#[global] Arguments apology : simpl never.
#[global] Arguments error_fragment : simpl never.

Section Provider.
(** The clock, [datetime.now().hour]. *)
Variable hour : Z.
(** [model.start_chat(history=h).send_message(message).text] *)
Variable send_message :
  GenerativeModel -> list Content -> pystr -> result pystr.
(** [model.start_chat(history=h).send_message(message, stream=True)] *)
Variable send_message_stream :
  GenerativeModel -> list Content -> pystr -> stream_script.

Definition _build_params (tier : ModelTier) (city : pystr)
    (max_tokens : Z) (history : option (list turn))
    (food_ctx : option (list FoodItem)) (user_address : option pystr)
    : result (pystr * list Content * GenerationConfig) :=
  let meal := get_meal_time hour in
  let system := build_system tier city hour meal user_address in
  let system :=
    match food_ctx with
    | Some ((_ :: _) as ctx) => system ++ nl ++ nl ++ build_food_context ctx
    | _ => system
    end in
  let hist :=
    build_history (match history with Some h => h | None => [] end) in
  ceiling ← getitem _MAX_TOKENS tier;
  let tokens := Z.min max_tokens ceiling in
  Ok (system, hist, mkGenerationConfig tokens).

Definition _build_model (tier : ModelTier) (system : pystr)
    (cfg : GenerationConfig) : result GenerativeModel :=
  name ← getitem _MODEL_MAP tier;
  Ok (mkGenerativeModel name system cfg).

Definition chat (message city : pystr) (tier : ModelTier)
    (max_tokens : Z) (history : option (list turn))
    (food_context : option (list FoodItem))
    (user_address : option pystr) : result pystr :=
  '(system, gemini_hist, cfg) ←
    _build_params tier city max_tokens history food_context user_address;
  let _call :=
    model ← _build_model tier system cfg;
    send_message model gemini_hist message in
  match _call with
  | Ok text => Ok text
  | Raise e => Ok (apology e)
  end.

(** One step of [_worker]. *)
Definition worker_step (tier : ModelTier) (system : pystr)
    (cfg : GenerationConfig) (gemini_hist : list Content)
    (message : pystr) (st : state) : state :=
  match wk st with
  | W_start =>
      match _build_model tier system cfg with
      | Ok model =>
          let s := send_message_stream model gemini_hist message in
          mkState (W_iter (chunks s) (failure s))
                  (queue st) (yielded st) (finished st)
      | Raise e =>
          mkState (W_except e) (queue st) (yielded st) (finished st)
      end
  | W_iter (c :: rest) f =>
      mkState (W_iter rest f)
              (match c with [] => queue st | _ => queue st ++ [Text c] end)
              (yielded st) (finished st)
  | W_iter [] (Some e) =>
      mkState (W_except e) (queue st) (yielded st) (finished st)
  | W_iter [] None =>
      mkState W_finally (queue st) (yielded st) (finished st)
  | W_except e =>
      mkState W_finally (queue st ++ [Text (error_fragment e)])
              (yielded st) (finished st)
  | W_finally =>
      mkState W_exit (queue st ++ [DONE]) (yielded st) (finished st)
  | W_exit => st
  end.

(** One turn of the [while True] loop of the generator: a
    [queue.get_nowait()], then [break], [yield] or, on [Empty], a
    sleep. *)
Definition consumer_step (st : state) : state :=
  if finished st then st
  else
    match queue st with
    | [] => st
    | DONE :: q => mkState (wk st) q (yielded st) true
    | Text s :: q => mkState (wk st) q (yielded st ++ [s]) false
    end.

(** The two threads interleaved as [sched] says. *)
Fixpoint run (tier : ModelTier) (system : pystr) (cfg : GenerationConfig)
    (gemini_hist : list Content) (message : pystr)
    (sched : list thread) (st : state) : state :=
  match sched with
  | [] => st
  | Worker :: sched' =>
      run tier system cfg gemini_hist message sched'
          (worker_step tier system cfg gemini_hist message st)
  | Consumer :: sched' =>
      run tier system cfg gemini_hist message sched' (consumer_step st)
  end.

(** [stream], observed after the interleaving [sched]: what it has
    yielded and whether it has returned; or the exception that leaves
    it before the worker is started. *)
Definition stream (sched : list thread) (message city : pystr)
    (tier : ModelTier) (max_tokens : Z) (history : option (list turn))
    (food_context : option (list FoodItem))
    (user_address : option pystr) : result (list pystr * bool) :=
  '(system, gemini_hist, cfg) ←
    _build_params tier city max_tokens history food_context user_address;
  let st := run tier system cfg gemini_hist message sched
                (mkState W_start [] [] false) in
  Ok (yielded st, finished st).
End Provider.

#[global] Arguments _build_model : simpl never.
#[global] Arguments _build_params : simpl never.

End GeminiService.

(* ===================================================================== *)
(** * db/models.py and the storage side of core/search.py *)
(* ===================================================================== *)

Module Db.

(** A row of the table [food]; every column but the key is nullable. The
    key [id] is the key of the table below. *)
Record Food : Type := mkFood {
  ten_quan : option pystr;
  ten_mon : option pystr;
  dia_chi : option pystr;
  quan : option pystr;
  thanh_pho : option pystr;
  gia_min : option Z;
  gia_max : option Z;
  note : option pystr;
  so_lan_click : option Z
}.

(** The table of one city, by primary key. *)
Abbreviation table := (gmap Z Food).

End Db.

Module SearchStore.

(** [x or ""] and [x or 0] on a nullable column. *)
Definition or_str (x : option pystr) : pystr :=
  match x with Some s => s | None => [] end.

Definition or_int (x : option Z) : Z :=
  match x with Some z => z | None => 0 end.

Definition _orm_to_item (i : Z) (food : Db.Food) : Models.FoodItem :=
  Models.mkFoodItem i
    (or_str (Db.ten_quan food)) (or_str (Db.ten_mon food))
    (or_str (Db.dia_chi food)) (or_str (Db.quan food))
    (or_str (Db.thanh_pho food))
    (or_int (Db.gia_min food)) (or_int (Db.gia_max food))
    (or_str (Db.note food)).

(** [_fetch_by_ids]: the rows whose id is in [ids] are put in a dict by id,
    which is then read in the order of [ids]. *)
Definition _fetch_by_ids (store : Db.table) (ids : list Z)
    : list Models.FoodItem :=
  match ids with
  | [] => []
  | _ =>
      let row_map : gmap Z Models.FoodItem :=
        map_imap (λ i r, if decide (i ∈ ids) then Some (_orm_to_item i r)
                         else None) store in
      omap (λ i, row_map !! i) ids
  end.

(** The vector index of a city: its size, and its search, which for the
    text to embed and a number [k] gives the row of positions found ([-1]
    where the index has nothing to give) or raises. *)
Record FaissIndex : Type := mkFaissIndex {
  ntotal : Z;
  search : pystr → Z → result (list Z)
}.

Section Faiss.
(** [_load_faiss]: the index of a city, or [FileNotFoundError]. *)
Variable _load_faiss : pystr → result FaissIndex.
(** The storage of each city. *)
Variable db : pystr → Db.table.

(** The embedding of the text ([_get_model] and [encode]) is part of
    [search]: its failure is a failure of [search]. *)
Definition _run_faiss (city query : pystr) (top_k : Z)
    : result (list Models.FoodItem) :=
  index ← _load_faiss city;
  let k := Z.min top_k (ntotal index) in
  indices ← search index (u "query: " ++ query) k;
  let ids := (λ i, i + 1) <$> filter (λ i, 0 ≤ i) indices in
  Ok (_fetch_by_ids (db city) ids).
End Faiss.

(** [_do_increment] inside [db_session]: the session commits when the body
    returns and rolls back when it raises. The result is what the call
    gives and the table afterwards. *)
Definition _do_increment (city : pystr) (food_id : Z) (store : Db.table)
    : result Z * Db.table :=
  match store !! food_id with
  | None =>
      (Raise (ValueError (u "Food id=" ++ str_of_Z food_id
                          ++ u " not found in " ++ city)),
       store)
  | Some food =>
      let n := or_int (Db.so_lan_click food) + 1 in
      (Ok n,
       <[food_id :=
           Db.mkFood (Db.ten_quan food) (Db.ten_mon food) (Db.dia_chi food)
             (Db.quan food) (Db.thanh_pho food) (Db.gia_min food)
             (Db.gia_max food) (Db.note food) (Some n)]> store)
  end.

Definition increment_click (city : pystr) (food_id : Z) (store : Db.table)
    : result Z * Db.table :=
  match SearchService._validate_city city with
  | Raise e => (Raise e, store)
  | Ok _ => _do_increment city food_id store
  end.

End SearchStore.

(* ===================================================================== *)
(** * core/gemini.py, continued: ranking the places near a user *)
(* ===================================================================== *)

Module GeminiNearby.
Import Models QueryRouter PromptBuilder GeminiService.

Definition _build_nearby_prompt (items : list FoodItem)
    (address city food_type : pystr) : pystr :=
  let ctx := build_food_context (slice_to items 15) in
  u "User ở: **" ++ address ++ u "**, thành phố " ++ city ++ u "." ++ nl
  ++ u "Tìm **" ++ food_type ++ u "** gần nhất." ++ nl ++ nl ++ ctx
  ++ nl ++ nl
  ++ u "Xếp hạng TOP 5 quán gần user nhất theo địa chỉ. "
  ++ u "Ưu tiên quán cùng quận/đường. Kèm lý do ngắn.".

Section Provider.
Variable hour : Z.
Variable send_message :
  GenerativeModel → list Content → pystr → result pystr.

Definition rank_nearby (items : list FoodItem)
    (user_address city food_type : pystr) : result pystr :=
  match items with
  | [] => Ok (u "Không tìm thấy quán **" ++ food_type
              ++ u "** nào trong dữ liệu.")
  | _ =>
      let prompt := _build_nearby_prompt items user_address city food_type in
      chat hour send_message prompt city gemini_flash 800 None None None
  end.
End Provider.

End GeminiNearby.

(* ===================================================================== *)
(** * handlers/*.py: the orchestration of the core *)
(* ===================================================================== *)

Module Handlers.
Import Models QueryRouter PromptBuilder GeminiService.

(** [models.py]: the bodies of the requests and responses. *)
Record ChatRequest : Type := mkChatRequest {
  message : pystr;
  city : pystr;
  history : option (list turn);
  user_address : option pystr
}.

Record ChatResponse : Type := mkChatResponse {
  reply : pystr;
  model_used : ModelTier;
  query_type : QueryType;
  results : list FoodItem
}.

Record SearchResponse : Type := mkSearchResponse {
  items : list FoodItem;
  total : Z;
  sr_city : pystr
}.

Record SuggestResponse : Type := mkSuggestResponse {
  meal_time : pystr;
  suggestions : list FoodItem;
  sg_reply : pystr;
  sg_model_used : pystr
}.

Record NearbyRequest : Type := mkNearbyRequest {
  query : pystr;
  nr_city : pystr;
  nr_user_address : pystr
}.

Record NearbyResponse : Type := mkNearbyResponse {
  nb_reply : pystr;
  nb_results : list FoodItem;
  nb_model_used : pystr
}.

(** [suggest_handler.MEAL_KEYWORDS] *)
Definition MEAL_KEYWORDS : list (pystr * pystr) := [
  (u "Bữa sáng", u "bún phở bánh mì xôi");
  (u "Bữa trưa", u "cơm bún mì");
  (u "Xế chiều", u "ăn vặt chè bánh");
  (u "Bữa tối", u "lẩu nướng cơm");
  (u "Ăn đêm", u "cháo mì bún")
].

Definition _FALLBACK_MSG : pystr :=
  u "Bạn có thể thử các món phổ biến trong vùng.".

(** [d.get(key, default)] on a dict with string keys. *)
Fixpoint dict_get (d : list (pystr * pystr)) (key default : pystr) : pystr :=
  match d with
  | [] => default
  | (k, v) :: d' => if str_eqb k key then v else dict_get d' key default
  end.

(** [bool(s)] for an optional string. *)
Definition has_text (s : option pystr) : bool :=
  match s with
  | Some (_ :: _) => true
  | _ => false
  end.

(** [ChatHandler._fallback_decision] *)
Definition _fallback_decision : RouteDecision :=
  mkRouteDecision gemini_flash 600 complex (u "Fallback từ simple").

Section Services.
(** The collaborators behind the services the handlers hold. [hour] is
    the reading of the clock, [datetime.now().hour]; the readings within
    one request are taken to agree. *)
Variable _run_faiss : pystr → pystr → Z → result (list FoodItem).
Variable _fetch_by_name : pystr → pystr → Z → result (list FoodItem).
Variable hour : Z.
Variable send_message :
  GenerativeModel → list Content → pystr → result pystr.
(** The order in which a [set] of strings is iterated. *)
Variable set_order : list pystr → list pystr.

(** Awaiting a search of the service. *)
Definition hybrid (city q : pystr) (top_k : Z) : result (list FoodItem) :=
  (SearchService.hybrid_search _run_faiss _fetch_by_name city q top_k).2.

Definition text (city q : pystr) (limit : Z) : result (list FoodItem) :=
  (SearchService.text_search _fetch_by_name city q limit).2.

(** ** SearchHandler *)

Definition search_handle (q city : pystr) (limit : Z) (mode : pystr)
    : result SearchResponse :=
  found ← (if str_eqb mode (u "text") then text city q limit
           else hybrid city q limit);
  Ok (mkSearchResponse found (len found) city).

(** ** SuggestHandler *)

Definition _build_reply (city : pystr) (hr : Z) (meal : pystr)
    (found : list FoodItem) : result pystr :=
  match found with
  | [] => Ok (u "Hiện tại " ++ meal ++ u ", " ++ _FALLBACK_MSG)
  | _ =>
      let food_names :=
        join (u ", ") (set_order (map ten_mon (slice_to found 5))) in
      let prompt :=
        u "Bây giờ " ++ str_of_Z hr ++ u "h (" ++ meal ++ u "). Danh sách: "
        ++ food_names ++ u ". "
        ++ u "Gợi ý 2-3 món phù hợp nhất, kèm lý do ngắn." in
      chat hour send_message prompt city gemini_flash 400 None (Some found)
           None
  end.

Definition suggest_handle (city : pystr) (hr : Z) : result SuggestResponse :=
  let meal := get_meal_time hr in
  found ← hybrid city (dict_get MEAL_KEYWORDS meal []) 8;
  text_ ← _build_reply city hr meal found;
  Ok (mkSuggestResponse meal found text_ (u "gemini-flash")).

(** ** NearbyHandler *)

Definition nearby_handle (req : NearbyRequest) : result NearbyResponse :=
  candidates ← hybrid (nr_city req) (query req) 15;
  text_ ← GeminiNearby.rank_nearby hour send_message candidates
             (nr_user_address req) (nr_city req) (query req);
  Ok (mkNearbyResponse text_ (slice_to candidates 10) (u "gemini-flash")).

(** ** ChatHandler, the REST path *)

Definition _try_simple (msg cty : pystr) : result (option ChatResponse) :=
  r ← SimpleQueryHandler.handle msg (λ kw lim, hybrid cty kw lim) hour;
  match r with
  | (_, _, false) => Ok None
  | (txt, found, true) => Ok (Some (mkChatResponse txt local simple found))
  end.

Definition _call_gemini (req : ChatRequest) (decision : RouteDecision)
    : result (pystr * list FoodItem) :=
  found ← hybrid (city req) (message req) 10;
  txt ← chat hour send_message (message req) (city req)
          (QueryRouter.model decision)
          (QueryRouter.max_output_tokens decision)
          (history req) (Some found) (user_address req);
  Ok (txt, found).

(** The last two statements of [handle_rest], which both the routed and
    the fallback decision reach: the call of [_call_gemini] and the
    response built from it. *)
Definition answer_with_gemini (req : ChatRequest) (decision : RouteDecision)
    : result ChatResponse :=
  '(txt, found) ← _call_gemini req decision;
  Ok (mkChatResponse txt (QueryRouter.model decision)
        (QueryRouter.query_type decision) found).

Definition handle_rest (req : ChatRequest) : result ChatResponse :=
  let decision := route (message req) (has_text (user_address req)) in
  match QueryRouter.model decision with
  | local =>
      tried ← _try_simple (message req) (city req);
      match tried with
      | Some response => Ok response
      | None => answer_with_gemini req _fallback_decision
      end
  | _ => answer_with_gemini req decision
  end.
End Services.

End Handlers.

(* ===================================================================== *)
(** * Sample storage *)
(* ===================================================================== *)

Module StoreSamples.

Definition row (name : string) (clicks : option Z) : Db.Food :=
  Db.mkFood (Some (u name)) (Some (u "Phở")) None None None
    (Some 50000) None None clicks.

(** Two rows: one clicked ten times, one whose counter was never set. *)
Definition food_table : Db.table :=
  <[1 := row "Phở Hà Nội" (Some 10)]> (<[2 := row "Bún Chả Lý" None]> ∅).

(** An index of three vectors that answers every search with the positions
    1, none, 0 and 7. *)
Definition small_index : SearchStore.FaissIndex :=
  SearchStore.mkFaissIndex 3 (λ _ _, Ok [1; -1; 0; 7]).

End StoreSamples.

(* ===================================================================== *)
(** * The fusion rule, in the words of the specification *)
(* ===================================================================== *)

Module Spec.
Import Models.

(** "Keep the first occurrence of each id, drop later duplicates": the
    head is kept, and every later record with the id of the head is
    dropped from what the rule keeps of the tail. *)
Fixpoint first_occurrences (l : list FoodItem) : list FoodItem :=
  match l with
  | [] => []
  | x :: l' => x :: filter (λ y, id y ≠ id x) (first_occurrences l')
  end.

(** "Iterate the literal-match results first, then the vector-similarity
    results; keep the first occurrence of each id; truncate to top_k". *)
Definition fuse (literal vector : list FoodItem) (top_k : nat)
    : list FoodItem :=
  take top_k (first_occurrences (literal ++ vector)).

(** What a consumer of the stream is to receive when the provider yields
    the chunks [cs] and then ends or fails: the chunks that are not
    empty, in order, then one error fragment if it failed. *)
Definition delivered (cs : list pystr) (failure : option exn)
    : list pystr :=
  filter (λ c, c ≠ []) cs
  ++ match failure with
     | Some e => [GeminiService.error_fragment e]
     | None => []
     end.

(** How many turns the thread [t] gets in the interleaving [sched]. *)
Definition turns (t : GeminiService.thread)
    (sched : list GeminiService.thread) : nat :=
  length (filter (λ x, x = t) sched).

(** Everything the worker puts on the queue from the loop on: the texts to
    deliver, then the sentinel. *)
Definition items_of (cs : list pystr) (f : option exn)
    : list GeminiService.item :=
  map GeminiService.Text (delivered cs f) ++ [GeminiService.DONE].

(** What the worker has still to put, from where it stands, when the
    provider's stream is the chunks [cs0] ended by [f0]. *)
Definition pending (cs0 : list pystr) (f0 : option exn)
    (w : GeminiService.worker) : list GeminiService.item :=
  match w with
  | GeminiService.W_start => items_of cs0 f0
  | GeminiService.W_iter rest f => items_of rest f
  | GeminiService.W_except e =>
      [GeminiService.Text (GeminiService.error_fragment e);
       GeminiService.DONE]
  | GeminiService.W_finally => [GeminiService.DONE]
  | GeminiService.W_exit => []
  end.

(** Nothing is lost, repeated or reordered between the worker and the
    generator: what was yielded, then the sentinel once taken, then the
    queue, then what is still to come, is the whole sequence. *)
Definition in_order (cs0 : list pystr) (f0 : option exn)
    (st : GeminiService.state) : Prop :=
  map GeminiService.Text (GeminiService.yielded st)
  ++ (if GeminiService.finished st then [GeminiService.DONE] else [])
  ++ GeminiService.queue st ++ pending cs0 f0 (GeminiService.wk st)
  = items_of cs0 f0.

(** A bound on the turns the worker still needs. *)
Definition work_left (cs0 : list pystr) (w : GeminiService.worker) : nat :=
  match w with
  | GeminiService.W_start => length cs0 + 4
  | GeminiService.W_iter rest _ => length rest + 3
  | GeminiService.W_except _ => 2
  | GeminiService.W_finally => 1
  | GeminiService.W_exit => 0
  end.

End Spec.

(* ===================================================================== *)
(** * Sample data *)
(* ===================================================================== *)

Module Samples.
Import Models.

(** Records as the tests of the repository build them. *)
Definition make (i : Z) (name : string) : FoodItem :=
  mkFoodItem i (u "Q") (u name) [] [] [] 0 0 [].

Definition priced (i : Z) (mn mx : Z) : FoodItem :=
  mkFoodItem i (u "Quán Test") (u "Phở") (u "123 Lê Lợi") (u "Quận 1")
    (u "Hà Nội") mn mx [].

(** A turn of history, [{"role": r, "text": t}]. *)
Definition say (r t : string) : PromptBuilder.turn :=
  <["role" := PyStr (u r)]> (<["text" := PyStr (u t)]> ∅).

End Samples.

(* ===================================================================== *)
(** * Properties *)
(* ===================================================================== *)

Import Models Samples.

(** Every pattern of the source lies in the fragment [Re] parses. *)
Example patterns_parse :
  forallb (fun p => bool_decide (is_Some (Re.parse (u p))))
    (QueryRouter.COMPLEX_PATTERNS ++ QueryRouter.HEAVY_PATTERNS ++
     ["g[aầ]n|xung quanh|khu v[uự]c|gan|nearby";
      "so s[aá]nh\s+(.+?)\s+(?:v[aà]|v[oớ]i|vs)\s+(.+?)(?:\s|$)";
      "(.+?)\s+(?:gi[aá] bao nhi[eê]u|bao nhi[eê]u ti[eề]n|gi[aá] th[eế] n[aà]o)";
      "(?:t[oô]i (?:mu[oố]n|th[iíì]ch|c[aầ]n) [aă]n|cho t[oô]i [aă]n|toi (?:muon|thich|can) an|cho toi an)\s+(.+?)(?:\s*$|\.)";
      "g[oợ]i [yý]|goi y|suggest|recommend";
      "(?:g[oợ]i [yý]|goi y|suggest)\s+(?:m[oó]n\s+)?(.+?)(?:\s|$)"]%string)
  = true.
Proof. vm_compute. reflexivity. Qed.

(** ** Python slices *)

Lemma slice_to_take {A} (l : list A) (n : Z) :
  ∃ k : nat, slice_to l n = take k l.
Proof. unfold slice_to. destruct (0 <=? n); eauto. Qed.

Lemma slice_to_nonneg {A} (l : list A) (n : Z) :
  0 ≤ n → slice_to l n = take (Z.to_nat n) l.
Proof.
  intros Hn. unfold slice_to.
  destruct (Z.leb_spec 0 n) as [_ | Hlt]; [reflexivity | lia].
Qed.

Lemma slice_from_last {A} (l : list A) (n : Z) :
  0 < n → slice_from l (- n) = drop (length l - Z.to_nat n) l.
Proof.
  intros Hn. unfold slice_from, len.
  destruct (Z.leb_spec 0 (- n)) as [Hle | _]; [lia |].
  f_equal. lia.
Qed.

(** ** Fusion *)

Section Fusion.
Import SearchService Spec.

(** A filter that only looks at ids commutes with the rule. *)
Lemma filter_first_occurrences (P : FoodItem → Prop)
    `{!∀ x, Decision (P x)} (l : list FoodItem) :
  (∀ x y, id x = id y → P x → P y) →
  filter P (first_occurrences l) = first_occurrences (filter P l).
Proof.
  intros HP. induction l as [| y l IH]; [reflexivity |].
  cbn [first_occurrences]. rewrite !filter_cons.
  destruct (decide (P y)) as [Hy | Hy].
  - cbn [first_occurrences]. f_equal. rewrite <- IH.
    rewrite !list_filter_filter. apply list_filter_iff. tauto.
  - rewrite <- IH. rewrite list_filter_filter.
    apply list_filter_iff. intros x. split; [tauto |].
    intros Hx. split; [exact Hx |]. intros Heq. eauto.
Qed.

(** The loop of [_merge], from any intermediate state. *)
Lemma merge_fold_spec (l : list FoodItem) :
  ∀ (seen : gset Z) (acc : list FoodItem),
    (fold_left merge_step l (seen, acc)).2
    = acc ++ first_occurrences (filter (λ x, id x ∉ seen) l).
Proof.
  induction l as [| x l IH]; intros seen acc.
  - cbn. by rewrite app_nil_r.
  - cbn [fold_left]. rewrite filter_cons. unfold merge_step at 2.
    destruct (decide (id x ∈ seen)) as [Hin | Hnin].
    + rewrite decide_False by tauto. apply IH.
    + rewrite decide_True by exact Hnin.
      rewrite IH. rewrite <- app_assoc. cbn [first_occurrences app].
      do 2 f_equal.
      rewrite filter_first_occurrences by congruence.
      f_equal. rewrite list_filter_filter.
      apply list_filter_iff. intros y.
      rewrite elem_of_union, elem_of_singleton. tauto.
Qed.

Lemma merge_is_fuse (priority secondary : list FoodItem) (top_k : Z) :
  _merge priority secondary top_k
  = slice_to (first_occurrences (priority ++ secondary)) top_k.
Proof.
  unfold _merge.
  pose proof (merge_fold_spec (priority ++ secondary) ∅ []) as H.
  destruct (fold_left merge_step (priority ++ secondary) (∅, []))
    as [seen merged].
  cbn in H. subst merged. f_equal. f_equal.
  induction (priority ++ secondary) as [| x l IH]; [reflexivity |].
  rewrite filter_cons_True by set_solver. by rewrite IH.
Qed.

Lemma ids_filter_sublist (P : FoodItem → Prop) `{!∀ x, Decision (P x)}
    (l : list FoodItem) :
  ids (filter P l) `sublist_of` ids l.
Proof. unfold ids. apply fmap_sublist, sublist_filter. Qed.

Lemma first_occurrences_NoDup (l : list FoodItem) :
  NoDup (ids (first_occurrences l)).
Proof.
  induction l as [| x l IH]; cbn [first_occurrences].
  - constructor.
  - unfold ids. rewrite fmap_cons. apply NoDup_cons. split.
    + intros Hin. apply list_elem_of_fmap in Hin as (y & Hy & Hin).
      apply list_elem_of_filter in Hin as [Hne _]. congruence.
    + exact (sublist_NoDup _ _ IH (ids_filter_sublist _ _)).
Qed.

Lemma first_occurrences_sublist (l : list FoodItem) :
  first_occurrences l `sublist_of` l.
Proof.
  induction l as [| x l IH]; cbn [first_occurrences]; [constructor |].
  apply sublist_skip. etrans; [apply sublist_filter | exact IH].
Qed.

(** Every id of the input is still there after the rule. *)
Lemma first_occurrences_ids (l : list FoodItem) (z : Z) :
  z ∈ ids l ↔ z ∈ ids (first_occurrences l).
Proof.
  induction l as [| x l IH]; [reflexivity |].
  cbn [first_occurrences]. unfold ids in *. rewrite !fmap_cons.
  rewrite !elem_of_cons, IH. split; intros [Hz | Hz]; auto.
  - destruct (decide (z = id x)) as [He | Hne]; [by left | right].
    apply list_elem_of_fmap in Hz as (y & Hy & Hin). subst z.
    apply list_elem_of_fmap. exists y. split; [reflexivity |].
    apply list_elem_of_filter. auto.
  - right. apply list_elem_of_fmap in Hz as (y & Hy & Hin).
    apply list_elem_of_filter in Hin as [_ Hin].
    apply list_elem_of_fmap. eauto.
Qed.

Lemma merge_NoDup (priority secondary : list FoodItem) (top_k : Z) :
  NoDup (ids (_merge priority secondary top_k)).
Proof.
  rewrite merge_is_fuse.
  destruct (slice_to_take (first_occurrences (priority ++ secondary)) top_k)
    as [k ->].
  refine (sublist_NoDup _ _ (first_occurrences_NoDup _) _).
  unfold ids. apply fmap_sublist, sublist_take.
Qed.
End Fusion.

Section FusionClaims.
Import SearchService Spec.

(** C4. For every pair of result lists and every [top_k] (a count, so not
    negative), [_merge] is the fusion rule of the specification: the
    literal list first, then the vector list, first occurrence of each id
    kept, cut to [top_k]. Hence it has at most [top_k] records and no
    repeated id; and merging [[A(id=1)]] with [[D(id=1); B(id=2)]] gives
    [[A; B]] as soon as [top_k] leaves room for two. *)
Theorem merge_is_priority_first_fusion
    (priority secondary : list FoodItem) (top_k : Z) :
  0 ≤ top_k →
  _merge priority secondary top_k
    = fuse priority secondary (Z.to_nat top_k)
  ∧ len (_merge priority secondary top_k) ≤ top_k
  ∧ _merge priority secondary top_k `sublist_of` priority ++ secondary
  ∧ NoDup (ids (_merge priority secondary top_k))
  ∧ (∀ A D B : FoodItem,
       id A = 1 → id D = 1 → id B = 2 → 2 ≤ top_k →
       _merge [A] [D; B] top_k = [A; B]).
Proof.
  intros Hk.
  assert (Hfuse : ∀ p s, _merge p s top_k = fuse p s (Z.to_nat top_k)).
  { intros p s. rewrite merge_is_fuse. by apply slice_to_nonneg. }
  split; [apply Hfuse |]. split; [| split; [| split]].
  - rewrite Hfuse. unfold fuse, len. rewrite length_take. lia.
  - rewrite Hfuse. unfold fuse.
    etrans; [apply sublist_take | apply first_occurrences_sublist].
  - apply merge_NoDup.
  - intros A D B HA HD HB H2. rewrite Hfuse. unfold fuse.
    cbn [app first_occurrences]. rewrite !filter_cons, !filter_nil.
    rewrite (decide_True (P := (id B ≠ id D))) by lia.
    rewrite (decide_False (P := (id D ≠ id A))) by lia.
    rewrite filter_cons, filter_nil.
    rewrite (decide_True (P := (id B ≠ id A))) by lia.
    destruct (Z.to_nat top_k) as [| [| n]] eqn:E; [lia | lia |].
    by destruct n.
Qed.

Lemma merge_is_priority_first_fusion_witness :
  0 ≤ 10 ∧
  _merge [make 1 "Priority"] [make 1 "Duplicate"; make 2 "Secondary"] 10
    = [make 1 "Priority"; make 2 "Secondary"].
Proof.
  split; [lia |].
  destruct (merge_is_priority_first_fusion
              [make 1 "Priority"]
              [make 1 "Duplicate"; make 2 "Secondary"] 10 ltac:(lia))
    as (_ & _ & _ & _ & Hex).
  apply Hex; [reflexivity | reflexivity | reflexivity | lia].
Defined.

(** What a negative [top_k] does: the slice drops records from the end
    instead of keeping a number of them. *)
Example merge_negative_top_k :
  ids (_merge [make 1 "a"; make 2 "b"; make 3 "c"] [] (-1)) = [1; 2].
Proof. vm_compute. reflexivity. Qed.

Lemma validate_city_ok (city : pystr) :
  city ∈ VALID_CITIES → _validate_city city = Ok tt.
Proof.
  intros Hin. unfold _validate_city.
  assert (existsb (str_eqb city) VALID_CITIES = true) as ->; [| done].
  apply existsb_exists. exists city. split.
  - by apply list_elem_of_In.
  - unfold str_eqb. by apply bool_decide_eq_true.
Qed.

Lemma validate_city_unknown (city : pystr) :
  city ∉ VALID_CITIES →
  _validate_city city = Raise (ValueError (u "Unknown city: " ++ city)).
Proof.
  intros Hnin. unfold _validate_city.
  destruct (existsb (str_eqb city) VALID_CITIES) eqn:E; [| done].
  apply existsb_exists in E as (c & Hc & Heq).
  unfold str_eqb in Heq. apply bool_decide_eq_true in Heq. subst c.
  by apply list_elem_of_In in Hc.
Qed.

Section WithBackends.
Variable _run_faiss : pystr → pystr → Z → result (list FoodItem).
Variable _fetch_by_name : pystr → pystr → Z → result (list FoodItem).

(** C1, as the code has it. For every supported city, query text and
    [top_k], [hybrid_search] issues exactly two retrieval calls over the
    same query text: the vector-similarity search is asked for [top_k]
    results and the literal text-match search for [top_k // 2]; when
    both return, the result is their fusion with the literal list first.
    (The claim has the two limits the other way round.) *)
Theorem hybrid_search_issues_two_calls (city query : pystr) (top_k : Z) :
  city ∈ VALID_CITIES →
  (hybrid_search _run_faiss _fetch_by_name city query top_k).1
    = [semantic_call city query top_k;
       text_call city query (top_k / 2)]
  ∧ (∀ sem txt,
       _run_faiss city query top_k = Ok sem →
       _fetch_by_name city query (top_k / 2) = Ok txt →
       (hybrid_search _run_faiss _fetch_by_name city query top_k).2
         = Ok (_merge txt sem top_k)).
Proof.
  intros Hcity. apply validate_city_ok in Hcity.
  unfold hybrid_search, gather, semantic_search, text_search.
  rewrite Hcity. cbn. split; [reflexivity |].
  intros sem txt -> ->. reflexivity.
Qed.

(** An unsupported city is refused before any call is issued. *)
Lemma hybrid_search_unknown_city (city query : pystr) (top_k : Z) :
  city ∉ VALID_CITIES →
  hybrid_search _run_faiss _fetch_by_name city query top_k
    = ([], Raise (ValueError (u "Unknown city: " ++ city))).
Proof.
  intros Hcity. apply validate_city_unknown in Hcity.
  unfold hybrid_search. by rewrite Hcity.
Qed.

Lemma hybrid_search_NoDup (city query : pystr) (top_k : Z)
    (items : list FoodItem) :
  (hybrid_search _run_faiss _fetch_by_name city query top_k).2 = Ok items →
  NoDup (ids items).
Proof.
  unfold hybrid_search, gather, semantic_search, text_search.
  destruct (_validate_city city); [| discriminate]. cbn.
  destruct (_run_faiss city query top_k) as [sem |];
    destruct (_fetch_by_name city query (top_k / 2)) as [txt |];
    cbn; try discriminate.
  intros [= <-]. apply merge_NoDup.
Qed.
End WithBackends.

Lemma hybrid_search_issues_two_calls_witness :
  u "ha_noi" ∈ VALID_CITIES ∧
  (hybrid_search (λ _ _ _, Ok [make 2 "Phở bò"])
                 (λ _ _ _, Ok [make 1 "Phở"])
                 (u "ha_noi") (u "phở") 10).1
    = [semantic_call (u "ha_noi") (u "phở") 10;
       text_call (u "ha_noi") (u "phở") (10 / 2)].
Proof.
  assert (H : u "ha_noi" ∈ VALID_CITIES) by (vm_compute; left).
  split; [exact H |].
  exact (proj1 (hybrid_search_issues_two_calls
                  (λ _ _ _, Ok [make 2 "Phở bò"])
                  (λ _ _ _, Ok [make 1 "Phở"])
                  (u "ha_noi") (u "phở") 10 H)).
Defined.

(** C1 as stated fails: with [top_k = 10] the literal search is not asked
    for 10 results and the vector search for 5; it is the reverse. *)
Lemma hybrid_search_limits_not_as_claimed :
  ¬ (In (text_call (u "ha_noi") (u "phở") 10)
        (hybrid_search (λ _ _ _, Ok []) (λ _ _ _, Ok [])
                       (u "ha_noi") (u "phở") 10).1
     ∧ In (semantic_call (u "ha_noi") (u "phở") (10 / 2))
          (hybrid_search (λ _ _ _, Ok []) (λ _ _ _, Ok [])
                         (u "ha_noi") (u "phở") 10).1).
Proof.
  vm_compute. intros [[H | [H | []]] _]; inversion H.
Qed.
End FusionClaims.

(** ** The query classifier *)

Section RouterClaims.
Import QueryRouter.

(** C5, as the code has it. For every query text whose length, once the
    whitespace around it is stripped, is greater than 200 characters, and
    either value of [has_location], [route] returns the heavy decision:
    tier gemini-pro (heavy-model), 1500 tokens, classification "heavy",
    whatever patterns the text matches. *)
Theorem long_query_is_heavy (query : pystr) (has_location : bool) :
  200 < len (strip query) →
  route query has_location
    = mkRouteDecision gemini_pro 1500 heavy (u "Query phức tạp nhiều tầng").
Proof.
  intros Hlen. apply Z.ltb_lt in Hlen.
  unfold route, _is_heavy. rewrite Hlen. reflexivity.
Qed.

Lemma long_query_is_heavy_witness :
  200 < len (strip (repeat 97%N 250)) ∧
  route (repeat 97%N 250) true
    = mkRouteDecision gemini_pro 1500 heavy (u "Query phức tạp nhiều tầng").
Proof.
  assert (H : 200 < len (strip (repeat 97%N 250))) by (vm_compute; reflexivity).
  split; [exact H |].
  exact (long_query_is_heavy (repeat 97%N 250) true H).
Defined.

(** C5 as stated fails: a text of 250 spaces is longer than 200
    characters and is classified "simple", because [route] measures the
    stripped text. *)
Lemma blank_long_query_is_not_heavy :
  200 < len (repeat 32%N 250) ∧
  query_type (route (repeat 32%N 250) false) ≠ heavy ∧
  query_type (route (repeat 32%N 250) true) ≠ heavy.
Proof. vm_compute. repeat split; discriminate. Qed.

(** The classifications the tests of the repository expect. *)
Example route_examples :
  map (λ q, query_type (route (u q) false))
      ["tôi muốn ăn phở"; "phở giá bao nhiêu"; "tìm quán phở gần tôi";
       "tối nay nên ăn gì"; "so sánh bún chả với phở và với cơm tấm"]%string
    = [simple; simple; complex; complex; heavy]
  ∧ query_type (route (u "tìm quán gần") true) = complex
  ∧ query_type (route (repeat 97%N 101) false) = complex
  ∧ query_type (route (repeat 97%N 201) false) = heavy.
Proof. vm_compute. repeat split. Qed.
End RouterClaims.

(** ** The intent parser and the template responder *)

Section SimpleClaims.
Import SimpleQueryHandler.

(** C6, as the code has it. [parse_intent] tries compare, then
    price-question, then want-to-eat, then suggestion, and answers
    Unknown (with the first 40 characters) when none matches; the first
    that succeeds wins, even when a later one would match too. On
    "so sánh phở với bún chả" it yields PriceCompare with first keyword
    "phở" and second keyword "bún": the second keyword ends at the first
    whitespace. *)
Theorem parse_intent_cascade (query : pystr) :
  (∀ t, _try_compare (strip (lower query)) = Some t →
        parse_intent query = t)
  ∧ (∀ t, _try_compare (strip (lower query)) = None →
          _try_price (strip (lower query)) = Some t →
          parse_intent query = t)
  ∧ (∀ t, _try_compare (strip (lower query)) = None →
          _try_price (strip (lower query)) = None →
          _try_want (strip (lower query)) = Some t →
          parse_intent query = t)
  ∧ (∀ t, _try_compare (strip (lower query)) = None →
          _try_price (strip (lower query)) = None →
          _try_want (strip (lower query)) = None →
          _try_suggest (strip (lower query)) = Some t →
          parse_intent query = t)
  ∧ (_try_compare (strip (lower query)) = None →
     _try_price (strip (lower query)) = None →
     _try_want (strip (lower query)) = None →
     _try_suggest (strip (lower query)) = None →
     parse_intent query = (unknown, slice_to (strip (lower query)) 40, None))
  ∧ parse_intent (u "so sánh phở với bún chả")
      = (price_compare, u "phở", Some (u "bún"))
  ∧ (is_Some (_try_price (u "so sánh phở với bún giá bao nhiêu"))
     ∧ parse_intent (u "so sánh phở với bún giá bao nhiêu")
         = (price_compare, u "phở", Some (u "bún"))).
Proof.
  split; [| split; [| split; [| split; [| split; [| split; [| split]]]]]].
  - intros t H1. unfold parse_intent. by rewrite H1.
  - intros t H1 H2. unfold parse_intent. by rewrite H1, H2.
  - intros t H1 H2 H3. unfold parse_intent. by rewrite H1, H2, H3.
  - intros t H1 H2 H3 H4. unfold parse_intent. by rewrite H1, H2, H3, H4.
  - intros H1 H2 H3 H4. unfold parse_intent. by rewrite H1, H2, H3, H4.
  - vm_compute. reflexivity.
  - vm_compute. eauto.
  - vm_compute. reflexivity.
Qed.

Lemma parse_intent_cascade_witness :
  _try_compare (strip (lower (u "Phở giá bao nhiêu"))) = None
  ∧ parse_intent (u "Phở giá bao nhiêu") = (price_query, u "phở", None).
Proof.
  assert (Hc : _try_compare (strip (lower (u "Phở giá bao nhiêu"))) = None)
    by (vm_compute; reflexivity).
  assert (Hp : _try_price (strip (lower (u "Phở giá bao nhiêu")))
               = Some (price_query, u "phở", None))
    by (vm_compute; reflexivity).
  split; [exact Hc |].
  exact (proj1 (proj2 (parse_intent_cascade (u "Phở giá bao nhiêu")))
           _ Hc Hp).
Defined.

(** C6 as stated fails: the second keyword is not "bún chả". *)
Lemma compare_second_keyword_is_one_word :
  parse_intent (u "so sánh phở với bún chả")
    ≠ (price_compare, u "phở", Some (u "bún chả")).
Proof. vm_compute. intros H. inversion H. Qed.

(** The intents the tests of the repository expect. *)
Example parse_intent_examples :
  map (λ q, (parse_intent (u q)).1.1)
      ["tôi muốn ăn phở"; "toi muon an bun cha"; "cho tôi ăn cơm tấm";
       "phở giá bao nhiêu"; "bún chả bao nhiêu tiền";
       "so sánh giá phở với bún chả"; "gợi ý món ăn sáng";
       "hello world"]%string
    = [want_to_eat; want_to_eat; want_to_eat; price_query; price_query;
       price_compare; suggest; unknown]
  ∧ parse_intent (u "tôi muốn ăn phở") = (want_to_eat, u "phở", None).
Proof. vm_compute. split; reflexivity. Qed.

Example fmt_examples :
  _fmt 50000 80000 = u "50k–80k" ∧ _fmt 60000 60000 = u "60k"
  ∧ _fmt 0 0 = u "Chưa có giá" ∧ _fmt 1 1 = u "Chưa có giá".
Proof. vm_compute. repeat split. Qed.
End SimpleClaims.

Section HandleClaims.
Import SimpleQueryHandler.

(** The lookups behind each path of [handle], and what it returns. *)
Lemma handle_by_intent (query : pystr) (fn : SearchFn) (hour : Z) :
  handle query fn hour =
    match parse_intent query with
    | (want_to_eat, kw, _) =>
        items ← fn kw 10; Ok (_resp_want kw items, items, true)
    | (price_query, kw, _) =>
        items ← fn kw 8; text ← _resp_price kw items; Ok (text, items, true)
    | (price_compare, kw, kw2) =>
        let kw2 := match kw2 with Some ((_ :: _) as k) => k | _ => [] end in
        items1 ← fn kw 5; items2 ← fn kw2 5;
        Ok (_resp_compare kw items1 kw2 items2, items1 ++ items2, true)
    | (suggest, kw, _) =>
        let meal := QueryRouter.get_meal_time hour in
        items ← fn (match kw with [] => meal | _ => kw end) 8;
        Ok (_resp_suggest kw items meal, items, true)
    | (unknown, _, _) => Ok ([], [], false)
    end.
Proof.
  unfold handle. destruct (parse_intent query) as [[[] kw] kw2]; reflexivity.
Qed.

(** C10, as the code has it. The merged output of [hybrid_search] has no
    two records with the same id. With a callback whose result sets have
    none either, so do the item lists of the want-to-eat, price-question,
    suggestion and Unknown paths of [handle], which return the one lookup
    as it is. The PriceCompare path returns its two lookups one after the
    other, without removing the ids they share. *)
Theorem result_sets_have_distinct_ids :
  (∀ priority secondary top_k,
     NoDup (ids (SearchService._merge priority secondary top_k)))
  ∧ (∀ faiss by_name city query top_k items,
       (SearchService.hybrid_search faiss by_name city query top_k).2
         = Ok items →
       NoDup (ids items))
  ∧ (∀ query (fn : SearchFn) hour text items handled,
       (∀ kw limit l, fn kw limit = Ok l → NoDup (ids l)) →
       (parse_intent query).1.1 ≠ price_compare →
       handle query fn hour = Ok (text, items, handled) →
       NoDup (ids items))
  ∧ (∀ query (fn : SearchFn) hour text items handled,
       (parse_intent query).1.1 = price_compare →
       handle query fn hour = Ok (text, items, handled) →
       ∃ kw1 kw2 items1 items2,
         fn kw1 5 = Ok items1 ∧ fn kw2 5 = Ok items2
         ∧ items = items1 ++ items2).
Proof.
  split; [apply merge_NoDup |]. split; [apply hybrid_search_NoDup |].
  split.
  - intros query fn hour text items handled Hfn Hne.
    rewrite handle_by_intent.
    destruct (parse_intent query) as [[intent kw] kw2]. cbn in Hne.
    destruct intent; try congruence; unfold mbind, result_bind.
    + destruct (fn kw 10) as [l |] eqn:E; [| discriminate].
      intros H; inversion H; subst; eauto.
    + destruct (fn kw 8) as [l |] eqn:E; [| discriminate].
      destruct (_resp_price kw l); [| discriminate].
      intros H; inversion H; subst; eauto.
    + destruct (fn _ 8) as [l |] eqn:E; [| discriminate].
      intros H; inversion H; subst; eauto.
    + intros H; inversion H; subst. constructor.
  - intros query fn hour text items handled Hcmp.
    rewrite handle_by_intent.
    destruct (parse_intent query) as [[intent kw] kw2]. cbn in Hcmp.
    subst intent. cbn zeta. unfold mbind, result_bind.
    generalize (match kw2 with Some ((_ :: _) as k) => k | _ => [] end).
    intros k2.
    destruct (fn kw 5) as [l1 |] eqn:E1; [| discriminate].
    destruct (fn k2 5) as [l2 |] eqn:E2; [| discriminate].
    intros H; inversion H; subst. eauto 10.
Qed.

Lemma result_sets_have_distinct_ids_witness :
  (parse_intent (u "tôi muốn ăn phở")).1.1 ≠ price_compare
  ∧ NoDup (ids [priced 1 50000 80000; priced 2 40000 60000]).
Proof.
  assert (Hne : (parse_intent (u "tôi muốn ăn phở")).1.1 ≠ price_compare)
    by (vm_compute; discriminate).
  split; [exact Hne |].
  refine (proj1 (proj2 (proj2 result_sets_have_distinct_ids))
            (u "tôi muốn ăn phở")
            (λ _ _, Ok [priced 1 50000 80000; priced 2 40000 60000]) 12
            (_resp_want (u "phở")
               [priced 1 50000 80000; priced 2 40000 60000])
            _ true _ Hne _).
  - intros kw limit l [= <-].
    apply (bool_decide_unpack _). vm_compute. exact I.
  - vm_compute. reflexivity.
Defined.

(** C10 as stated fails on the PriceCompare path: when both lookups
    return the same record, a list without repeated id each, the item
    list of [handle] holds it twice. *)
Lemma compare_path_repeats_an_id :
  match handle (u "so sánh phở với bún chả")
               (λ _ _, Ok [priced 1 50000 80000]) 12 with
  | Ok (_, items, _) => ids items = [1; 1] ∧ ¬ NoDup (ids items)
  | Raise _ => False
  end.
Proof.
  vm_compute. split; [reflexivity |].
  intros H. apply NoDup_cons in H as [Hnin _]. apply Hnin. left.
Qed.

(** C7: the code at the failing input. A price question whose only priced
    record has no lower bound ([gia_min = 0], [gia_max = 50000]) makes
    [handle] raise [ValueError] from [min()] of an empty sequence, where
    the claim has it return a reply; a record priced only through its
    lower bound fails the same way in [max()]. *)
Theorem price_query_raises_without_lower_bound :
  parse_intent (u "phở giá bao nhiêu") = (price_query, u "phở", None)
  ∧ has_price (priced 1 0 50000) = true
  ∧ handle (u "phở giá bao nhiêu") (λ _ _, Ok [priced 1 0 50000]) 12
      = Raise (ValueError (u "min() arg is an empty sequence"))
  ∧ handle (u "phở giá bao nhiêu") (λ _ _, Ok [priced 1 50000 0]) 12
      = Raise (ValueError (u "max() arg is an empty sequence")).
Proof. vm_compute. repeat split. Qed.

(** Where the price template does return: some record among the (at most
    five) priced ones has a lower bound and some has an upper bound. *)
Lemma resp_price_returns (kw : pystr) (items : list FoodItem) :
  (∃ r, r ∈ slice_to (filter has_price items) 5 ∧ 1 < gia_min r) →
  (∃ r, r ∈ slice_to (filter has_price items) 5 ∧ 1 < gia_max r) →
  ∃ text, _resp_price kw items = Ok text.
Proof.
  intros (r1 & Hin1 & Hmin) (r2 & Hin2 & Hmax). unfold _resp_price.
  destruct (slice_to (filter has_price items) 5) as [| p ps] eqn:E.
  { by apply elem_of_nil in Hin1. }
  assert (H1 : r1 ∈ filter (λ r, 1 <? gia_min r) (p :: ps)).
  { apply list_elem_of_filter. split; [| done].
    apply Is_true_true. by apply Z.ltb_lt. }
  assert (H2 : r2 ∈ filter (λ r, 1 <? gia_max r) (p :: ps)).
  { apply list_elem_of_filter. split; [| done].
    apply Is_true_true. by apply Z.ltb_lt. }
  destruct (filter (λ r, 1 <? gia_min r) (p :: ps)) as [| a l1];
    [by apply elem_of_nil in H1 |].
  destruct (filter (λ r, 1 <? gia_max r) (p :: ps)) as [| b l2];
    [by apply elem_of_nil in H2 |].
  cbn [map py_min py_max]. unfold mbind, result_bind. eexists. reflexivity.
Qed.

(** C2: the code at three failing inputs. (1) Both sides hold one record
    priced 50k: the means are equal and the reply names the second
    keyword as cheaper instead of calling the prices comparable. (2) No
    side has a priced record and the reply still names the second
    keyword. (3) The first side has one record at 10k and one without
    price, the second one record at 8k: the sum over the priced records
    is divided by the number of all records, 10000/2 < 8000, and the
    reply names the first keyword although its priced mean is higher.
    The lookups do ask for 5 records per keyword. *)
Theorem compare_reply_names_wrong_side :
  handle (u "so sánh phở với bún")
         (λ kw limit,
            if negb (bool_decide (limit = 5)) then Ok []
            else if bool_decide (kw = u "phở")
            then Ok [priced 1 50000 50000] else Ok [priced 2 50000 50000]) 12
    = Ok (u "💰 So sánh giá:" ++ nl ++ nl ++ u "**phở**: 50k đ" ++ nl
          ++ u "**bún**: 50k đ" ++ nl ++ nl ++ u "👉 **bún** thường rẻ hơn",
          [priced 1 50000 50000; priced 2 50000 50000], true)
  ∧ winner (u "phở") [priced 1 0 0] (u "bún") [priced 2 0 0]
      = Some (u "bún")
  ∧ winner (u "phở") [priced 1 10000 10000; priced 3 0 0]
           (u "bún") [priced 2 8000 8000]
      = Some (u "phở").
Proof. vm_compute. repeat split. Qed.
End HandleClaims.

(** ** The prompt builder *)

Section PromptClaims.
Import PromptBuilder.

Lemma trim_history_drop (history : list turn) :
  trim_history history = drop (length history - 6) history.
Proof.
  unfold trim_history. destruct history as [| m history]; [reflexivity |].
  unfold MAX_HISTORY_TURNS. by rewrite slice_from_last.
Qed.

(** The condition under which a turn is kept: its role is "user" or
    "model" (the assistant role of the specification) and its text is
    true, which for a string means not empty. *)
Lemma keeps_spec (m : turn) :
  keeps m = true ↔
    (get m "role" = PyStr (u "user") ∨ get m "role" = PyStr (u "model"))
    ∧ truthy (get m "text") = true.
Proof.
  unfold keeps. rewrite andb_true_iff.
  assert (in_strs (get m "role") [u "user"; u "model"] = true ↔
          get m "role" = PyStr (u "user") ∨ get m "role" = PyStr (u "model"))
    as ->; [| reflexivity].
  destruct (get m "role") as [| s | | |]; cbn [in_strs existsb];
    try (split; [discriminate | intros [H | H]; discriminate]).
  unfold str_eqb. rewrite orb_false_r, orb_true_iff, !bool_decide_eq_true.
  split; (intros [H | H]; [left | right]); congruence.
Qed.

(** C3. For every history list, the history handed to generation is made
    of the last 6 turns of the input (all of them when there are fewer),
    in their order, without the turns whose role is neither "user" nor
    "model" (the specification's assistant) or whose text is empty; so it
    has at most 6 turns, and of 9 turns that all qualify exactly the last
    6 are retained. *)
Theorem history_is_last_six_qualifying_turns (raw : list turn) :
  ∃ older recent : list turn,
    raw = older ++ recent
    ∧ length recent = Nat.min 6 (length raw)
    ∧ build_history raw
        = map (λ m, mkContent (get m "role") [get m "text"])
              (filter keeps recent)
    ∧ (length (build_history raw) ≤ 6)%nat
    ∧ ((∀ m, m ∈ raw → keeps m = true) →
       build_history raw
         = map (λ m, mkContent (get m "role") [get m "text"]) recent).
Proof.
  exists (take (length raw - 6) raw), (drop (length raw - 6) raw).
  assert (Hlen : length (drop (length raw - 6) raw)
                 = Nat.min 6 (length raw)).
  { rewrite length_drop. lia. }
  split; [by rewrite take_drop |]. split; [exact Hlen |].
  unfold build_history. rewrite trim_history_drop.
  split; [reflexivity |]. split.
  - rewrite length_map.
    pose proof (length_filter keeps (drop (length raw - 6) raw)). lia.
  - intros Hall. f_equal.
    assert (Hrec : ∀ m, m ∈ drop (length raw - 6) raw → keeps m = true).
    { intros m Hm. apply Hall.
      rewrite <- (take_drop (length raw - 6) raw).
      apply elem_of_app. by right. }
    clear Hlen Hall.
    induction (drop (length raw - 6) raw) as [| m l IH]; [reflexivity |].
    rewrite filter_cons_True.
    + f_equal. apply IH. intros m' Hm'. apply Hrec. by right.
    + apply Is_true_true, Hrec. by left.
Qed.

(** Nine turns, of which the older ones and the ones that do not qualify
    are left out. *)
Example build_history_nine_turns :
  build_history
    [say "user" "1"; say "model" "2"; say "user" "3";
     say "user" "4"; say "model" "5"; say "system" "6";
     say "user" ""; say "model" "8"; say "user" "9"]
  = [mkContent (PyStr (u "user")) [PyStr (u "4")];
     mkContent (PyStr (u "model")) [PyStr (u "5")];
     mkContent (PyStr (u "model")) [PyStr (u "8")];
     mkContent (PyStr (u "user")) [PyStr (u "9")]].
Proof. vm_compute. reflexivity. Qed.
End PromptClaims.

(** ** The generation bridge: single-shot *)

Section ChatClaims.
Import QueryRouter PromptBuilder GeminiService.

Variable hour : Z.
Variable send_message :
  GenerativeModel → list Content → pystr → result pystr.

(** The hard ceiling of a tier that has one. *)
Lemma max_tokens_of_tier (tier : ModelTier) :
  tier ≠ local →
  getitem _MAX_TOKENS tier
    = Ok (match tier with gemini_pro => 1500 | _ => 800 end)
  ∧ getitem _MODEL_MAP tier = Ok (u "gemini-2.0-flash").
Proof. destruct tier; [congruence | |]; intros _; split; reflexivity. Qed.

(** C8, as the code has it. For the tiers that reach the provider
    (gemini-flash and gemini-pro) and every outcome of the provider call,
    [chat] returns: the text of the provider when the call succeeds, and
    when it raises, whatever the class of the exception, the apology that
    embeds the class name. The request carries the trimmed history and the
    token budget clamped to the ceiling of the tier. Nothing is promised
    for a fault raised while the parameters are built, which happens
    before the guarded call. *)
Theorem chat_answers_provider_failure_with_apology
    (message city : pystr) (tier : ModelTier) (max_tokens : Z)
    (history : option (list turn)) (food_context : option (list FoodItem))
    (user_address : option pystr) :
  tier ≠ local →
  ∃ model : GenerativeModel,
    max_output_tokens (generation_config model)
      = Z.min max_tokens (match tier with gemini_pro => 1500 | _ => 800 end)
    ∧ chat hour send_message message city tier max_tokens history
           food_context user_address
      = Ok match send_message model
                   (build_history
                      (match history with Some h => h | None => [] end))
                   message with
           | Ok text => text
           | Raise e =>
               u "Xin lỗi, AI đang gặp sự cố. (" ++ type_name e ++ u ")"
           end.
Proof.
  intros Htier. destruct (max_tokens_of_tier tier Htier) as [Hmax Hname].
  unfold chat, _build_params, _build_model.
  rewrite Hmax, Hname. unfold mbind, result_bind.
  match goal with
  | |- context [send_message ?m ?h message] =>
      exists m; split; [reflexivity |];
      destruct (send_message m h message); reflexivity
  end.
Qed.
End ChatClaims.

Lemma chat_answers_provider_failure_with_apology_witness :
  QueryRouter.gemini_flash ≠ QueryRouter.local
  ∧ GeminiService.chat 12
      (λ _ _ _, Raise (ProviderError (u "ResourceExhausted")))
      (u "quán nào ngon") (u "ha_noi") QueryRouter.gemini_flash 600
      None None None
    = Ok (u "Xin lỗi, AI đang gặp sự cố. (ResourceExhausted)").
Proof.
  assert (H : QueryRouter.gemini_flash ≠ QueryRouter.local) by discriminate.
  split; [exact H |].
  destruct (chat_answers_provider_failure_with_apology 12
              (λ _ _ _, Raise (ProviderError (u "ResourceExhausted")))
              (u "quán nào ngon") (u "ha_noi") QueryRouter.gemini_flash 600
              None None None H) as (model & _ & Hchat).
  rewrite Hchat. vm_compute. reflexivity.
Defined.

(** C8 as stated fails for the tier local: it has no entry in
    [_MAX_TOKENS], the lookup raises [KeyError] while the parameters are
    built, outside the [try], and the exception leaves [chat]. *)
Lemma chat_local_tier_raises :
  GeminiService.chat 12 (λ _ _ _, Ok (u "ok"))
    (u "quán nào ngon") (u "ha_noi") QueryRouter.local 256 None None None
  = Raise (KeyError (u "local")).
Proof. vm_compute. reflexivity. Qed.

(** ** The generation bridge: streaming *)

Section StreamMachine.
Import QueryRouter PromptBuilder GeminiService Spec.

Variable send_message_stream :
  GenerativeModel → list Content → pystr → stream_script.
Variables (tier : ModelTier) (system : pystr) (cfg : GenerationConfig).
Variables (gemini_hist : list Content) (message : pystr).

(** The provider's behaviour on the request of this stream. *)
Variables (model : GenerativeModel) (cs0 : list pystr) (f0 : option exn).
Hypothesis Hmodel : _build_model tier system cfg = Ok model.
Hypothesis Hscript :
  send_message_stream model gemini_hist message = mkScript cs0 f0.

Local Abbreviation wstep :=
  (worker_step send_message_stream tier system cfg gemini_hist message).
Local Abbreviation exec :=
  (run send_message_stream tier system cfg gemini_hist message).
Local Abbreviation pending := (Spec.pending cs0 f0).
Local Abbreviation in_order := (Spec.in_order cs0 f0).
Local Abbreviation work_left := (Spec.work_left cs0).

Lemma items_of_cons (c : pystr) (rest : list pystr) (f : option exn) :
  items_of (c :: rest) f
  = match c with [] => [] | _ => [Text c] end ++ items_of rest f.
Proof.
  unfold items_of, delivered. rewrite filter_cons.
  destruct c as [| a c]; [by rewrite decide_False by tauto |].
  by rewrite decide_True by discriminate.
Qed.

Lemma in_order_start : in_order (mkState W_start [] [] false).
Proof. reflexivity. Qed.

Lemma worker_step_in_order (st : state) :
  in_order st → in_order (wstep st).
Proof.
  unfold Spec.in_order, worker_step. destruct st as [w q y fin].
  cbn [wk queue yielded finished].
  destruct w as [| [| c rest] [e |] | e | |];
    cbn [wk queue yielded finished Spec.pending]; intros H.
  - rewrite Hmodel, Hscript. exact H.
  - exact H.
  - exact H.
  - rewrite items_of_cons in H.
    destruct c; [exact H |]. by rewrite <- app_assoc.
  - rewrite items_of_cons in H.
    destruct c; [exact H |]. by rewrite <- app_assoc.
  - by rewrite <- app_assoc.
  - by rewrite <- app_assoc.
  - exact H.
Qed.

Lemma consumer_step_in_order (st : state) :
  in_order st → in_order (consumer_step st).
Proof.
  unfold Spec.in_order, consumer_step. destruct st as [w q y fin]. cbn.
  destruct fin; [done |]. destruct q as [| [s |] q]; cbn; intros H.
  - exact H.
  - rewrite map_app, <- app_assoc. exact H.
  - exact H.
Qed.

Lemma run_in_order (sched : list thread) (st : state) :
  in_order st → in_order (exec sched st).
Proof.
  revert st. induction sched as [| [|] sched IH]; intros st H;
    cbn [run].
  - exact H.
  - apply IH, worker_step_in_order, H.
  - apply IH, consumer_step_in_order, H.
Qed.

(** Reading the sequence back: texts before the sentinel are a prefix of
    what is to be delivered, and all of it once the sentinel is met. *)
Lemma texts_prefix (y out : list pystr) (r : list item) :
  map Text y ++ r = map Text out ++ [DONE] →
  y `prefix_of` out ∧ (∀ r', r = DONE :: r' → y = out ∧ r' = []).
Proof.
  revert out. induction y as [| a y IH]; intros out H; cbn in H.
  - split; [apply prefix_nil |]. intros r' ->.
    destruct out as [| b out]; cbn in H; [| discriminate].
    by inversion H.
  - destruct out as [| b out]; cbn in H.
    + discriminate H.
    + inversion H as [[Ha Hy]]. destruct (IH _ Hy) as [Hp Hd].
      split; [by apply prefix_cons |].
      intros r' Hr. destruct (Hd r' Hr) as [-> ->]. done.
Qed.

Lemma no_sentinel_no_end (y out : list pystr) :
  map Text y ≠ map Text out ++ [DONE].
Proof.
  revert out. induction y as [| a y IH]; intros [| b out]; cbn;
    try discriminate.
  intros H. inversion H. eapply IH; eauto.
Qed.

(** Safety, under every interleaving. *)
Lemma run_safe (sched : list thread) :
  yielded (exec sched (mkState W_start [] [] false))
    `prefix_of` delivered cs0 f0
  ∧ (finished (exec sched (mkState W_start [] [] false)) = true →
     yielded (exec sched (mkState W_start [] [] false))
       = delivered cs0 f0).
Proof.
  pose proof (run_in_order sched _ in_order_start) as H.
  unfold Spec.in_order, items_of in H.
  destruct (texts_prefix _ _ _ H) as [Hp Hd]. split; [exact Hp |].
  intros Hfin. rewrite Hfin in H, Hd. by destruct (Hd _ eq_refl).
Qed.

(** The worker runs to its end in a bounded number of its own turns,
    whatever the generator does meanwhile. *)
Lemma worker_step_progress (st : state) :
  (work_left (wk (wstep st)) ≤ work_left (wk st) - 1)%nat.
Proof.
  unfold worker_step. destruct st as [w q y fin]. cbn.
  destruct w as [| [| c rest] [e |] | e | |]; cbn; try lia.
  rewrite Hmodel, Hscript. cbn. lia.
Qed.

Lemma consumer_step_wk (st : state) : wk (consumer_step st) = wk st.
Proof.
  unfold consumer_step. destruct (finished st); [done |].
  by destruct (queue st) as [| [|] ?].
Qed.

Lemma turns_cons (t x : thread) (sched : list thread) :
  turns t (x :: sched)
  = if decide (x = t) then S (turns t sched) else turns t sched.
Proof. unfold turns. rewrite filter_cons. by destruct (decide (x = t)). Qed.

Lemma run_work_left (sched : list thread) (st : state) :
  (work_left (wk (exec sched st))
   ≤ work_left (wk st) - turns Worker sched)%nat.
Proof.
  revert st. induction sched as [| [|] sched IH]; intros st;
    cbn [run].
  - change (turns Worker []) with 0%nat. lia.
  - etrans; [apply IH |]. pose proof (worker_step_progress st).
    rewrite turns_cons, decide_True by done. lia.
  - etrans; [apply IH |]. rewrite consumer_step_wk.
    rewrite turns_cons, decide_False by done. lia.
Qed.

Lemma work_left_0 (w : worker) : work_left w = 0%nat → w = W_exit.
Proof. destruct w; cbn; (lia || done). Qed.

Lemma worker_step_consumer_side (st : state) :
  finished (wstep st) = finished st ∧ yielded (wstep st) = yielded st.
Proof.
  unfold worker_step.
  destruct (wk st) as [| [| c rest] [e |] | e | |]; try done.
  by destruct (_build_model tier system cfg).
Qed.

Lemma run_finished_stable (sched : list thread) (st : state) :
  finished st = true →
  finished (exec sched st) = true ∧ yielded (exec sched st) = yielded st.
Proof.
  revert st. induction sched as [| [|] sched IH]; intros st H;
    cbn [run].
  - done.
  - destruct (worker_step_consumer_side st) as [Hf Hy].
    destruct (IH (wstep st)) as [H1 H2]; [congruence |].
    split; congruence.
  - unfold consumer_step. rewrite H. by apply IH.
Qed.

Lemma queue_not_empty (st : state) :
  wk st = W_exit → in_order st → finished st = false → queue st ≠ [].
Proof.
  intros Hw Hin Hf Hq. unfold Spec.in_order, items_of in Hin.
  rewrite Hf, Hq, Hw in Hin. cbn [Spec.pending app] in Hin.
  rewrite app_nil_r in Hin. by apply no_sentinel_no_end in Hin.
Qed.

(** Once the worker is gone, each turn of the generator takes one entry
    off the queue, and the last entry is the sentinel. *)
Lemma run_drains (sched : list thread) (st : state) :
  wk st = W_exit → in_order st →
  (length (queue st) ≤ turns Consumer sched)%nat →
  finished (exec sched st) = true.
Proof.
  revert st. induction sched as [| [|] sched IH]; intros st Hw Hin Hlen;
    cbn [run].
  - destruct (finished st) eqn:Hf; [done |]. exfalso.
    apply (queue_not_empty st Hw Hin Hf).
    destruct (queue st); [done |]. cbn in Hlen. lia.
  - assert (Hsame : wstep st = st).
    { unfold worker_step. by rewrite Hw. }
    rewrite Hsame. rewrite turns_cons, decide_False in Hlen by done.
    by apply IH.
  - destruct (finished st) eqn:Hf.
    { apply run_finished_stable. unfold consumer_step. by rewrite Hf. }
    pose proof (consumer_step_in_order st Hin) as Hin'.
    pose proof (queue_not_empty st Hw Hin Hf) as Hne.
    rewrite turns_cons, decide_True in Hlen by done.
    revert Hin'. unfold consumer_step. rewrite Hf.
    destruct (queue st) as [| [s |] q] eqn:Hq; intros Hin'; [done | |].
    + apply IH; cbn [wk queue]; try done. cbn [length] in Hlen. lia.
    + by apply run_finished_stable.
Qed.

Lemma run_app (s1 s2 : list thread) (st : state) :
  exec (s1 ++ s2) st = exec s2 (exec s1 st).
Proof.
  revert st. induction s1 as [| [|] s1 IH]; intros st;
    cbn [run app]; [done | |]; apply IH.
Qed.

(** Liveness: once the worker has had its turns, the generator needs at
    most one turn per entry to return, having yielded everything. *)
Lemma run_live (s1 s2 : list thread) :
  (length cs0 + 4 ≤ turns Worker s1)%nat →
  (length (delivered cs0 f0) + 1 ≤ turns Consumer s2)%nat →
  finished (exec (s1 ++ s2) (mkState W_start [] [] false)) = true
  ∧ yielded (exec (s1 ++ s2) (mkState W_start [] [] false))
      = delivered cs0 f0.
Proof.
  intros H1 H2.
  assert (Hfin : finished (exec (s1 ++ s2) (mkState W_start [] [] false))
                 = true).
  { rewrite run_app. set (st1 := exec s1 (mkState W_start [] [] false)).
    assert (Hin : in_order st1) by apply run_in_order, in_order_start.
    apply run_drains; [| exact Hin |].
    - apply work_left_0.
      pose proof (run_work_left s1 (mkState W_start [] [] false)) as Hw.
      fold st1 in Hw. cbn in Hw. lia.
    - unfold Spec.in_order, items_of in Hin.
      apply (f_equal length) in Hin.
      rewrite !length_app, !length_map in Hin. cbn in Hin. lia. }
  split; [exact Hfin |]. by apply run_safe.
Qed.
End StreamMachine.

Section StreamClaims.
Import QueryRouter PromptBuilder GeminiService Spec.

Lemma build_params_ok (hour : Z) (tier : ModelTier) (city : pystr)
    (max_tokens : Z) (history : option (list turn))
    (food_ctx : option (list FoodItem)) (user_address : option pystr) :
  tier ≠ local →
  ∃ system hist cfg model,
    _build_params hour tier city max_tokens history food_ctx user_address
      = Ok (system, hist, cfg)
    ∧ _build_model tier system cfg = Ok model.
Proof.
  intros Htier. destruct (max_tokens_of_tier tier Htier) as [Hmax Hname].
  unfold _build_params, _build_model. rewrite Hmax, Hname.
  unfold mbind, result_bind. eauto 10.
Qed.

(** C9. When the provider yields the chunks [cs] and then fails with [e]
    (a failure of the call itself being the case of no chunk), then under
    every interleaving of the worker and the generator, what [stream] has
    yielded so far is a prefix of: the chunks that are not empty, in
    order, then the one error fragment; once the generator has returned
    it has yielded exactly that, so nothing follows the error fragment;
    [stream] raises nothing; and it does return, with all of it, as soon
    as the worker has had its turns and the generator then one turn per
    queue entry. *)
Theorem stream_delivers_chunks_then_one_error
    (hour : Z)
    (send_message_stream :
       GenerativeModel → list Content → pystr → stream_script)
    (message city : pystr) (tier : ModelTier) (max_tokens : Z)
    (history : option (list turn)) (food_context : option (list FoodItem))
    (user_address : option pystr) (cs : list pystr) (e : exn) :
  tier ≠ local →
  (∀ model h, send_message_stream model h message = mkScript cs (Some e)) →
  (∀ sched, ∃ out fin,
     stream hour send_message_stream sched message city tier max_tokens
            history food_context user_address = Ok (out, fin)
     ∧ out `prefix_of` filter (λ c, c ≠ []) cs ++ [error_fragment e]
     ∧ (fin = true → out = filter (λ c, c ≠ []) cs ++ [error_fragment e]))
  ∧ (∀ s1 s2,
       (length cs + 4 ≤ turns Worker s1)%nat →
       (length (filter (λ c, c ≠ []) cs) + 2 ≤ turns Consumer s2)%nat →
       stream hour send_message_stream (s1 ++ s2) message city tier
              max_tokens history food_context user_address
         = Ok (filter (λ c, c ≠ []) cs ++ [error_fragment e], true)).
Proof.
  intros Htier Hscript.
  destruct (build_params_ok hour tier city max_tokens history food_context
              user_address Htier)
    as (system & hist & cfg & model & Hparams & Hmodel).
  unfold stream. rewrite Hparams. unfold mbind, result_bind.
  split.
  - intros sched. eexists _, _. split; [reflexivity |].
    exact (run_safe send_message_stream tier system cfg hist message
             model cs (Some e) Hmodel (Hscript model hist) sched).
  - intros s1 s2 H1 H2.
    destruct (run_live send_message_stream tier system cfg hist message
                model cs (Some e) Hmodel (Hscript model hist) s1 s2 H1)
      as [Hfin Hout].
    + unfold delivered. rewrite length_app. cbn [length]. lia.
    + rewrite Hfin, Hout. reflexivity.
Qed.

(** The same machine when the provider ends without failing: the chunks
    that are not empty, and no error fragment. *)
Lemma stream_delivers_chunks
    (hour : Z)
    (send_message_stream :
       GenerativeModel → list Content → pystr → stream_script)
    (message city : pystr) (tier : ModelTier) (max_tokens : Z)
    (history : option (list turn)) (food_context : option (list FoodItem))
    (user_address : option pystr) (cs : list pystr) (s1 s2 : list thread) :
  tier ≠ local →
  (∀ model h, send_message_stream model h message = mkScript cs None) →
  (length cs + 4 ≤ turns Worker s1)%nat →
  (length (filter (λ c, c ≠ []) cs) + 1 ≤ turns Consumer s2)%nat →
  stream hour send_message_stream (s1 ++ s2) message city tier
         max_tokens history food_context user_address
    = Ok (filter (λ c, c ≠ []) cs, true).
Proof.
  intros Htier Hscript H1 H2.
  destruct (build_params_ok hour tier city max_tokens history food_context
              user_address Htier)
    as (system & hist & cfg & model & Hparams & Hmodel).
  unfold stream. rewrite Hparams. unfold mbind, result_bind.
  destruct (run_live send_message_stream tier system cfg hist message
              model cs None Hmodel (Hscript model hist) s1 s2 H1)
    as [Hfin Hout].
  - unfold delivered. rewrite app_nil_r. lia.
  - rewrite Hfin, Hout. unfold delivered. by rewrite app_nil_r.
Qed.
End StreamClaims.

Lemma stream_delivers_chunks_then_one_error_witness :
  QueryRouter.gemini_flash ≠ QueryRouter.local
  ∧ GeminiService.stream 12
      (λ _ _ _, GeminiService.mkScript [u "Phở"; []; u " ngon"]
                  (Some (ProviderError (u "ResourceExhausted"))))
      (repeat GeminiService.Worker 7 ++ repeat GeminiService.Consumer 4)
      (u "quán nào ngon") (u "ha_noi") QueryRouter.gemini_flash 600
      None None None
    = Ok ([u "Phở"; u " ngon";
           GeminiService.error_fragment (ProviderError (u "ResourceExhausted"))],
          true).
Proof.
  assert (H : QueryRouter.gemini_flash ≠ QueryRouter.local) by discriminate.
  split; [exact H |].
  refine (proj2 (stream_delivers_chunks_then_one_error 12
                   (λ _ _ _, GeminiService.mkScript [u "Phở"; []; u " ngon"]
                               (Some (ProviderError (u "ResourceExhausted"))))
                   (u "quán nào ngon") (u "ha_noi") QueryRouter.gemini_flash
                   600 None None None [u "Phở"; []; u " ngon"]
                   (ProviderError (u "ResourceExhausted")) H
                   (λ _ _, eq_refl))
            (repeat GeminiService.Worker 7)
            (repeat GeminiService.Consumer 4) _ _).
  - vm_compute. lia.
  - vm_compute. lia.
Defined.

(** The two threads taking turns, the generator polling an empty queue
    more than once: the same delivery. *)
Example stream_interleaved :
  GeminiService.stream 12
    (λ _ _ _, GeminiService.mkScript [u "Phở"; []; u " ngon"]
                (Some (ProviderError (u "ResourceExhausted"))))
    (let w := GeminiService.Worker in
     let c := GeminiService.Consumer in
     [c; w; c; w; c; c; w; w; c; w; c; w; c; w; c; c; c])
    (u "quán nào ngon") (u "ha_noi") QueryRouter.gemini_flash 600
    None None None
  = Ok ([u "Phở"; u " ngon"; nl ++ u "[Lỗi: ResourceExhausted]"], true).
Proof. vm_compute. reflexivity. Qed.

(** Before the worker exists, [stream] is as exposed as [chat]: for the
    tier local the parameters cannot be built and [KeyError] leaves it. *)
Example stream_local_tier_raises :
  GeminiService.stream 12 (λ _ _ _, GeminiService.mkScript [] None) []
    (u "quán nào ngon") (u "ha_noi") QueryRouter.local 256 None None None
  = Raise (KeyError (u "local")).
Proof. vm_compute. reflexivity. Qed.

(* ===================================================================== *)
(** * Further properties of the code *)
(* ===================================================================== *)

(** ** Stripping *)

Lemma lstrip_idempotent (s : pystr) : lstrip (lstrip s) = lstrip s.
Proof.
  induction s as [| c s IH]; [reflexivity |]. cbn [lstrip].
  destruct (isspace c) eqn:E; [exact IH |]. cbn [lstrip]. by rewrite E.
Qed.

Lemma lstrip_snoc (l : pystr) (c : N) :
  isspace c = false → lstrip (l ++ [c]) = lstrip l ++ [c].
Proof.
  intros Hc. induction l as [| a l IH]; cbn [lstrip app].
  - by rewrite Hc.
  - by destruct (isspace a).
Qed.

Lemma rstrip_cons (c : N) (t : pystr) :
  isspace c = false → rstrip (c :: t) = c :: rstrip t.
Proof.
  intros Hc. unfold rstrip. cbn [rev].
  rewrite lstrip_snoc by exact Hc. rewrite rev_app_distr. reflexivity.
Qed.

Lemma rstrip_idempotent (s : pystr) : rstrip (rstrip s) = rstrip s.
Proof.
  unfold rstrip. by rewrite rev_involutive, lstrip_idempotent.
Qed.

Lemma lstrip_head (s : pystr) :
  lstrip s = [] ∨ ∃ c t, lstrip s = c :: t ∧ isspace c = false.
Proof.
  induction s as [| c s IH]; [by left |]. cbn [lstrip].
  destruct (isspace c) eqn:E; [exact IH |]. right. eauto.
Qed.

Lemma strip_idempotent (s : pystr) : strip (strip s) = strip s.
Proof.
  unfold strip.
  assert (H : lstrip (rstrip (lstrip s)) = rstrip (lstrip s)).
  { destruct (lstrip_head s) as [-> | (c & t & -> & Hc)]; [reflexivity |].
    rewrite rstrip_cons by exact Hc. cbn [lstrip]. by rewrite Hc. }
  rewrite H. apply rstrip_idempotent.
Qed.

(** ** The query classifier *)

Section RouterExtras.
Import QueryRouter.

Lemma meal_labels_distinct :
  NoDup [u "Bữa sáng"; u "Bữa trưa"; u "Xế chiều"; u "Bữa tối"; u "Ăn đêm"].
Proof. apply (bool_decide_unpack _). vm_compute. exact I. Qed.

(** X1. [get_meal_time] cuts the hours into five ranges with five different
    labels: 6 to 9 breakfast, 10 to 13 lunch, 14 to 16 afternoon, 17 to 20
    dinner, and every other integer, below 6 or from 21 on and also outside
    0 to 23, the late-night label. *)
Theorem meal_time_ranges (hour : Z) :
  (6 ≤ hour < 10 → get_meal_time hour = u "Bữa sáng")
  ∧ (10 ≤ hour < 14 → get_meal_time hour = u "Bữa trưa")
  ∧ (14 ≤ hour < 17 → get_meal_time hour = u "Xế chiều")
  ∧ (17 ≤ hour < 21 → get_meal_time hour = u "Bữa tối")
  ∧ (hour < 6 ∨ 21 ≤ hour → get_meal_time hour = u "Ăn đêm")
  ∧ NoDup [u "Bữa sáng"; u "Bữa trưa"; u "Xế chiều"; u "Bữa tối";
           u "Ăn đêm"].
Proof.
  assert (Hin : ∀ a b, a ≤ hour < b → (a <=? hour) && (hour <? b) = true).
  { intros a b H. apply andb_true_iff.
    split; [apply Z.leb_le | apply Z.ltb_lt]; lia. }
  assert (Hout : ∀ a b, hour < a ∨ b ≤ hour →
                        (a <=? hour) && (hour <? b) = false).
  { intros a b [H | H]; apply andb_false_iff;
      [left; apply Z.leb_gt | right; apply Z.ltb_ge]; lia. }
  unfold get_meal_time.
  split; [| split; [| split; [| split; [| split]]]].
  - intros H. by rewrite (Hin 6 10 H).
  - intros H. rewrite (Hout 6 10), (Hin 10 14 H) by lia. reflexivity.
  - intros H. rewrite (Hout 6 10), (Hout 10 14), (Hin 14 17 H) by lia.
    reflexivity.
  - intros H.
    rewrite (Hout 6 10), (Hout 10 14), (Hout 14 17), (Hin 17 21 H) by lia.
    reflexivity.
  - intros H.
    rewrite (Hout 6 10), (Hout 10 14), (Hout 14 17), (Hout 17 21) by lia.
    reflexivity.
  - exact meal_labels_distinct.
Qed.

Lemma meal_time_ranges_witness :
  6 ≤ 7 < 10 ∧ get_meal_time 7 = u "Bữa sáng".
Proof.
  assert (H : 6 ≤ 7 < 10) by lia.
  split; [exact H |]. exact (proj1 (meal_time_ranges 7) H).
Defined.

(** X2. The token budget [route] gives a query that goes to the provider is
    exactly the ceiling [_MAX_TOKENS] holds for its tier, so the clamp of
    [_build_params] never cuts a routed budget. *)
Theorem routed_budget_is_tier_ceiling (query : pystr) (has_location : bool) :
  model (route query has_location) ≠ local →
  GeminiService.getitem GeminiService._MAX_TOKENS
    (model (route query has_location))
  = Ok (max_output_tokens (route query has_location)).
Proof.
  unfold route. destruct (_is_heavy (strip query)); [reflexivity |].
  destruct (_is_complex (strip query) has_location); [reflexivity |].
  cbn [model]. congruence.
Qed.

Lemma routed_budget_is_tier_ceiling_witness :
  model (route (u "tìm quán phở gần tôi") false) ≠ local
  ∧ GeminiService.getitem GeminiService._MAX_TOKENS
      (model (route (u "tìm quán phở gần tôi") false))
    = Ok 800.
Proof.
  assert (H : model (route (u "tìm quán phở gần tôi") false) ≠ local)
    by (vm_compute; discriminate).
  split; [exact H |].
  rewrite (routed_budget_is_tier_ceiling _ _ H). vm_compute. reflexivity.
Defined.

(** X3. With the location flag set, a text that holds a proximity word
    ("gần", "xung quanh", "khu vực", "gan", "nearby") is never classified
    simple, whatever else it holds. *)
Theorem location_hint_is_not_simple (query : pystr) :
  Re.found "g[aầ]n|xung quanh|khu v[uự]c|gan|nearby" (strip query) = true →
  query_type (route query true) ≠ simple
  ∧ model (route query true) ≠ local.
Proof.
  intros H. unfold route.
  destruct (_is_heavy (strip query)); [split; discriminate |].
  unfold _is_complex. rewrite H. cbn [andb orb]. split; discriminate.
Qed.

Lemma location_hint_is_not_simple_witness :
  Re.found "g[aầ]n|xung quanh|khu v[uự]c|gan|nearby"
    (strip (u "phở nearby")) = true
  ∧ query_type (route (u "phở nearby") true) ≠ simple.
Proof.
  assert (H : Re.found "g[aầ]n|xung quanh|khu v[uự]c|gan|nearby"
                (strip (u "phở nearby")) = true)
    by (vm_compute; reflexivity).
  split; [exact H |]. exact (proj1 (location_hint_is_not_simple _ H)).
Defined.

(** A text of more than 100 characters (stripped) is never classified
    simple: it is complex, or heavy. *)
Lemma long_text_is_not_simple (query : pystr) (has_location : bool) :
  100 < len (strip query) →
  query_type (route query has_location) ≠ simple
  ∧ model (route query has_location) ≠ local.
Proof.
  intros H. apply Z.ltb_lt in H. unfold route.
  destruct (_is_heavy (strip query)); [split; discriminate |].
  unfold _is_complex. rewrite H, orb_true_r. split; discriminate.
Qed.

Lemma long_text_is_not_simple_witness :
  100 < len (strip (repeat 97%N 101))
  ∧ query_type (route (repeat 97%N 101) false) ≠ simple.
Proof.
  assert (H : 100 < len (strip (repeat 97%N 101)))
    by (vm_compute; reflexivity).
  split; [exact H |]. exact (proj1 (long_text_is_not_simple _ false H)).
Defined.

(** X4. The location flag can only raise a classification: a query that is
    not simple without the flag gets the same decision with it. *)
Theorem location_flag_only_escalates (query : pystr) :
  query_type (route query false) ≠ simple →
  route query true = route query false.
Proof.
  unfold route. destruct (_is_heavy (strip query)); [reflexivity |].
  unfold _is_complex. rewrite andb_false_l, orb_false_l.
  destruct (_match COMPLEX_PATTERNS (strip query) || (100 <? len (strip query)))
    eqn:E.
  - intros _. rewrite <- orb_assoc, E, orb_true_r. reflexivity.
  - cbn [query_type]. congruence.
Qed.

Lemma location_flag_only_escalates_witness :
  query_type (route (u "tối nay nên ăn gì") false) ≠ simple
  ∧ route (u "tối nay nên ăn gì") true = route (u "tối nay nên ăn gì") false.
Proof.
  assert (H : query_type (route (u "tối nay nên ăn gì") false) ≠ simple)
    by (vm_compute; discriminate).
  split; [exact H |]. exact (location_flag_only_escalates _ H).
Defined.

(** X5. Whitespace around the text does not count: a query and its stripped
    form get the same decision. *)
Theorem route_ignores_surrounding_whitespace
    (query : pystr) (has_location : bool) :
  route (strip query) has_location = route query has_location.
Proof. unfold route. by rewrite strip_idempotent. Qed.
End RouterExtras.

(** ** The template responder *)

Section SimpleExtras.
Import SimpleQueryHandler.

(** Each parser of the cascade answers with its own tag. *)
Lemma try_tags (q : pystr) (t : parsed) :
  (_try_compare q = Some t → t.1.1 = price_compare)
  ∧ (_try_price q = Some t → t.1.1 = price_query)
  ∧ (_try_want q = Some t → t.1.1 = want_to_eat)
  ∧ (_try_suggest q = Some t → t.1.1 = suggest).
Proof.
  unfold _try_compare, _try_price, _try_want, _try_suggest.
  repeat split.
  - destruct (Re.search _ q); [| discriminate]. by intros [= <-].
  - destruct (Re.search _ q); [| discriminate]. by intros [= <-].
  - destruct (Re.search _ q); [| discriminate]. by intros [= <-].
  - destruct (negb _); [discriminate |]. by intros [= <-].
Qed.

(** X6. [handle] declines, with an empty reply and no record, exactly when
    the intent is unknown, and then it does not consult the search
    callback: the answer is the same whatever the callback would do. *)
Theorem handle_declines_exactly_unknown
    (query : pystr) (fn : SearchFn) (hour : Z) :
  ((parse_intent query).1.1 = unknown →
   handle query fn hour = Ok ([], [], false))
  ∧ (∀ text items,
       handle query fn hour = Ok (text, items, false) →
       (parse_intent query).1.1 = unknown ∧ text = [] ∧ items = []).
Proof.
  rewrite handle_by_intent.
  destruct (parse_intent query) as [[intent kw] kw2]. cbn [fst].
  split.
  - intros ->. reflexivity.
  - intros text items. unfold mbind, result_bind.
    destruct intent; cbn zeta.
    + destruct (fn kw 10); [| discriminate]. intros H. inversion H.
    + destruct (fn kw 8) as [l |]; [| discriminate].
      destruct (_resp_price kw l); [| discriminate]. intros H. inversion H.
    + destruct (fn kw 5); [| discriminate].
      destruct (fn _ 5); [| discriminate]. intros H. inversion H.
    + destruct (fn _ 8); [| discriminate]. intros H. inversion H.
    + intros H. inversion H. done.
Qed.

Lemma handle_declines_exactly_unknown_witness :
  (parse_intent (u "hello world")).1.1 = unknown
  ∧ handle (u "hello world") (λ _ _, Raise (ProviderError (u "down"))) 12
    = Ok ([], [], false).
Proof.
  assert (H : (parse_intent (u "hello world")).1.1 = unknown)
    by (vm_compute; reflexivity).
  split; [exact H |].
  exact (proj1 (handle_declines_exactly_unknown (u "hello world")
                  (λ _ _, Raise (ProviderError (u "down"))) 12) H).
Defined.

(** X7. When no pattern matches, the keyword [parse_intent] reports is the
    first 40 characters of the lower-cased, stripped text, and there is no
    second keyword. *)
Theorem unknown_keeps_first_forty (query : pystr) :
  (parse_intent query).1.1 = unknown →
  parse_intent query = (unknown, take 40 (strip (lower query)), None)
  ∧ len (parse_intent query).1.2 ≤ 40.
Proof.
  unfold parse_intent.
  pose proof (λ t, proj1 (try_tags (strip (lower query)) t)) as Hc.
  pose proof (λ t, proj1 (proj2 (try_tags (strip (lower query)) t))) as Hp.
  pose proof (λ t, proj1 (proj2 (proj2 (try_tags (strip (lower query)) t))))
    as Hw.
  pose proof (λ t, proj2 (proj2 (proj2 (try_tags (strip (lower query)) t))))
    as Hs.
  destruct (_try_compare (strip (lower query))) as [t |]; cbn [or_else].
  { intros H. rewrite (Hc t eq_refl) in H. discriminate. }
  destruct (_try_price (strip (lower query))) as [t |]; cbn [or_else].
  { intros H. rewrite (Hp t eq_refl) in H. discriminate. }
  destruct (_try_want (strip (lower query))) as [t |]; cbn [or_else].
  { intros H. rewrite (Hw t eq_refl) in H. discriminate. }
  destruct (_try_suggest (strip (lower query))) as [t |].
  { intros H. rewrite (Hs t eq_refl) in H. discriminate. }
  intros _. rewrite slice_to_nonneg by lia. split; [reflexivity |].
  cbn [fst snd]. unfold len. rewrite length_take. lia.
Qed.

Lemma unknown_keeps_first_forty_witness :
  (parse_intent (u "  Hello World  ")).1.1 = unknown
  ∧ parse_intent (u "  Hello World  ") = (unknown, u "hello world", None).
Proof.
  assert (H : (parse_intent (u "  Hello World  ")).1.1 = unknown)
    by (vm_compute; reflexivity).
  split; [exact H |].
  rewrite (proj1 (unknown_keeps_first_forty _ H)). vm_compute. reflexivity.
Defined.

(** X8. A failure of the search callback is not caught by [handle]: when
    the intent is known and the callback raises, [handle] raises the same
    exception. *)
Theorem handle_propagates_lookup_failure
    (query : pystr) (fn : SearchFn) (hour : Z) (e : exn) :
  (∀ kw limit, fn kw limit = Raise e) →
  (parse_intent query).1.1 ≠ unknown →
  handle query fn hour = Raise e.
Proof.
  intros Hfn. rewrite handle_by_intent.
  destruct (parse_intent query) as [[intent kw] kw2]. cbn [fst].
  unfold mbind, result_bind.
  destruct intent; cbn zeta; rewrite ?Hfn; congruence.
Qed.

Lemma handle_propagates_lookup_failure_witness :
  (parse_intent (u "tôi muốn ăn phở")).1.1 ≠ unknown
  ∧ handle (u "tôi muốn ăn phở")
           (λ _ _, Raise (ValueError (u "Unknown city: paris"))) 12
    = Raise (ValueError (u "Unknown city: paris")).
Proof.
  assert (H : (parse_intent (u "tôi muốn ăn phở")).1.1 ≠ unknown)
    by (vm_compute; discriminate).
  split; [exact H |].
  exact (handle_propagates_lookup_failure (u "tôi muốn ăn phở")
           (λ _ _, Raise (ValueError (u "Unknown city: paris"))) 12 _
           (λ _ _, eq_refl) H).
Defined.

(** X9. The price template returns exactly in two cases: no record has a
    known price (it then says so), or, among the first five priced records,
    one has a lower bound above 1 and one has an upper bound above 1. In
    every other case it raises. *)
Theorem resp_price_returns_iff (kw : pystr) (items : list FoodItem) :
  (∃ text, _resp_price kw items = Ok text)
  ↔ slice_to (filter has_price items) 5 = []
    ∨ ((∃ r, r ∈ slice_to (filter has_price items) 5 ∧ 1 < gia_min r)
       ∧ (∃ r, r ∈ slice_to (filter has_price items) 5 ∧ 1 < gia_max r)).
Proof.
  split.
  - intros [text H]. unfold _resp_price in H.
    destruct (slice_to (filter has_price items) 5) as [| p ps] eqn:E;
      [by left |].
    right. unfold mbind, result_bind in H.
    destruct (filter (λ r, 1 <? gia_min r) (p :: ps)) as [| a l1] eqn:E1;
      [discriminate |].
    destruct (filter (λ r, 1 <? gia_max r) (p :: ps)) as [| b l2] eqn:E2;
      [discriminate |].
    split.
    + exists a. assert (Ha : a ∈ filter (λ r, 1 <? gia_min r) (p :: ps))
        by (rewrite E1; left).
      apply list_elem_of_filter in Ha as [Ha1 Ha2].
      split; [exact Ha2 |]. apply Is_true_true in Ha1. by apply Z.ltb_lt.
    + exists b. assert (Hb : b ∈ filter (λ r, 1 <? gia_max r) (p :: ps))
        by (rewrite E2; left).
      apply list_elem_of_filter in Hb as [Hb1 Hb2].
      split; [exact Hb2 |]. apply Is_true_true in Hb1. by apply Z.ltb_lt.
  - intros [E | [H1 H2]].
    + unfold _resp_price. rewrite E. eauto.
    + by apply resp_price_returns.
Qed.

(** [_fmt] shows the unknown-price text exactly when both bounds are
    at most 1. *)
Lemma fmt_unknown_iff (mn mx : Z) :
  _fmt mn mx = u "Chưa có giá" ↔ mn ≤ 1 ∧ mx ≤ 1.
Proof.
  assert (Hlast : last (u "Chưa có giá") = Some 225%N)
    by (vm_compute; reflexivity).
  assert (Hk : ∀ l : pystr, l ++ u "k" ≠ u "Chưa có giá").
  { intros l H. apply (f_equal last) in H.
    change (u "k") with [107%N] in H. rewrite last_snoc, Hlast in H.
    discriminate. }
  unfold _fmt.
  destruct (Z.leb_spec mn 1), (Z.leb_spec mx 1); cbn [andb];
    try (split; [intros; lia | done]).
  all: destruct (mn =? mx);
    (split; [| intros; lia]); intros Heq; exfalso;
    rewrite ?app_assoc in Heq; by apply Hk in Heq.
Qed.
End SimpleExtras.

(** ** Fusion, continued *)

Section FusionExtras.
Import SearchService Spec.

Lemma filter_keeps_all {A} (P : A → Prop) `{!∀ x, Decision (P x)}
    (l : list A) :
  (∀ x, x ∈ l → P x) → filter P l = l.
Proof.
  induction l as [| x l IH]; intros Hall; [reflexivity |].
  rewrite filter_cons_True by (apply Hall; left).
  f_equal. apply IH. intros y Hy. apply Hall. by right.
Qed.

(** Distinct ids in the first list: it passes the rule untouched. *)
Lemma first_occurrences_app_NoDup (p s : list FoodItem) :
  NoDup (ids p) →
  first_occurrences (p ++ s)
  = p ++ first_occurrences (filter (λ x, id x ∉ ids p) s).
Proof.
  induction p as [| y p IH]; intros Hnd.
  - cbn [app]. f_equal. symmetry. apply filter_keeps_all.
    intros x _. unfold ids. cbn. apply not_elem_of_nil.
  - unfold ids in Hnd. rewrite fmap_cons in Hnd.
    apply NoDup_cons in Hnd as [Hy Hnd].
    cbn [app first_occurrences]. f_equal. rewrite (IH Hnd), filter_app.
    f_equal.
    + apply filter_keeps_all. intros x Hx Heq. apply Hy.
      rewrite <- Heq. by apply list_elem_of_fmap_2.
    + rewrite filter_first_occurrences by congruence.
      f_equal. rewrite list_filter_filter. apply list_filter_iff.
      intros x. unfold ids. rewrite fmap_cons, not_elem_of_cons. tauto.
Qed.

Lemma first_occurrences_length (l : list FoodItem) :
  (length (first_occurrences l) ≤ length l)%nat.
Proof. apply sublist_length, first_occurrences_sublist. Qed.

Lemma first_occurrences_from_first (l1 l2 : list FoodItem) (x : FoodItem) :
  x ∈ first_occurrences (l1 ++ l2) → id x ∈ ids l1 → x ∈ l1.
Proof.
  induction l1 as [| y l1 IH]; intros Hx Hid.
  - unfold ids in Hid. cbn in Hid. by apply elem_of_nil in Hid.
  - cbn [app first_occurrences] in Hx. apply elem_of_cons in Hx as [-> | Hx];
      [left |].
    apply list_elem_of_filter in Hx as [Hne Hx]. right. apply IH; [exact Hx |].
    unfold ids in *. rewrite fmap_cons in Hid.
    apply elem_of_cons in Hid as [Heq | Hid]; [congruence | exact Hid].
Qed.

(** X10. When the literal results have distinct ids, they pass the fusion
    untouched and in front: the vector results only fill the places left,
    with the records whose id the literal list does not have. So with
    [top_k] at most the number of literal results the vector search has no
    effect, and with more the literal list is a prefix of the result. *)
Theorem literal_results_come_first
    (priority secondary : list FoodItem) (top_k : Z) :
  NoDup (ids priority) → 0 ≤ top_k →
  _merge priority secondary top_k
    = take (Z.to_nat top_k)
        (priority
         ++ first_occurrences (filter (λ x, id x ∉ ids priority) secondary))
  ∧ (top_k ≤ len priority →
     _merge priority secondary top_k = take (Z.to_nat top_k) priority)
  ∧ (len priority ≤ top_k →
     priority `prefix_of` _merge priority secondary top_k).
Proof.
  intros Hnd Hk. rewrite merge_is_fuse, slice_to_nonneg by exact Hk.
  rewrite first_occurrences_app_NoDup by exact Hnd.
  split; [reflexivity |]. unfold len. split; intros Hlen.
  - rewrite take_app_le by lia. reflexivity.
  - rewrite take_app_ge by lia. by apply prefix_app_r.
Qed.

Lemma literal_results_come_first_witness :
  NoDup (ids [make 1 "Phở bò"; make 2 "Bún chả"]) ∧ 0 ≤ 3
  ∧ _merge [make 1 "Phở bò"; make 2 "Bún chả"]
           [make 2 "Bún"; make 7 "Xôi"; make 9 "Chè"] 3
    = [make 1 "Phở bò"; make 2 "Bún chả"; make 7 "Xôi"].
Proof.
  assert (Hnd : NoDup (ids [make 1 "Phở bò"; make 2 "Bún chả"]))
    by (apply (bool_decide_unpack _); vm_compute; exact I).
  assert (Hk : 0 ≤ 3) by lia.
  split; [exact Hnd |]. split; [exact Hk |].
  rewrite (proj1 (literal_results_come_first _ _ 3 Hnd Hk)).
  vm_compute. reflexivity.
Defined.

(** X11. With [top_k] at least the number of records of both lists, the
    fusion loses no id: an id is in the result exactly when it is in one of
    the two lists. *)
Theorem merge_keeps_every_id
    (priority secondary : list FoodItem) (top_k : Z) (z : Z) :
  len (priority ++ secondary) ≤ top_k →
  z ∈ ids (_merge priority secondary top_k)
  ↔ z ∈ ids priority ∨ z ∈ ids secondary.
Proof.
  unfold len. intros Hlen.
  rewrite merge_is_fuse, slice_to_nonneg by lia.
  pose proof (first_occurrences_length (priority ++ secondary)).
  rewrite take_ge by lia.
  rewrite <- first_occurrences_ids. unfold ids.
  rewrite fmap_app. apply elem_of_app.
Qed.

Lemma merge_keeps_every_id_witness :
  len ([make 1 "a"] ++ [make 1 "b"; make 5 "c"]) ≤ 3
  ∧ (5 ∈ ids (_merge [make 1 "a"] [make 1 "b"; make 5 "c"] 3)).
Proof.
  assert (H : len ([make 1 "a"] ++ [make 1 "b"; make 5 "c"]) ≤ 3)
    by (vm_compute; discriminate).
  split; [exact H |].
  apply (merge_keeps_every_id _ _ 3 5 H). right.
  apply (bool_decide_unpack _). vm_compute. exact I.
Defined.

(** X12. On a shared id the literal record wins: a record of the result
    whose id occurs in the literal list is a record of the literal list,
    never the vector search's copy. *)
Theorem literal_record_wins
    (priority secondary : list FoodItem) (top_k : Z) (x : FoodItem) :
  x ∈ _merge priority secondary top_k →
  id x ∈ ids priority →
  x ∈ priority.
Proof.
  rewrite merge_is_fuse.
  destruct (slice_to_take (first_occurrences (priority ++ secondary)) top_k)
    as [k ->].
  intros Hx. apply first_occurrences_from_first with secondary.
  eapply elem_of_sublist; [exact Hx | apply sublist_take].
Qed.

Lemma literal_record_wins_witness :
  make 1 "Priority"
    ∈ _merge [make 1 "Priority"] [make 1 "Duplicate"; make 2 "Secondary"] 10
  ∧ make 1 "Priority" ∈ [make 1 "Priority"].
Proof.
  assert (H1 : make 1 "Priority"
                 ∈ _merge [make 1 "Priority"]
                     [make 1 "Duplicate"; make 2 "Secondary"] 10)
    by (vm_compute; left).
  assert (H2 : id (make 1 "Priority") ∈ ids [make 1 "Priority"])
    by (vm_compute; left).
  split; [exact H1 |].
  exact (literal_record_wins _ _ _ _ H1 H2).
Defined.

Section WithBackends.
Variable _run_faiss : pystr → pystr → Z → result (list FoodItem).
Variable _fetch_by_name : pystr → pystr → Z → result (list FoodItem).

Lemma hybrid_search_length_le
    (city query : pystr) (top_k : Z) (found : list FoodItem) :
  0 ≤ top_k →
  (hybrid_search _run_faiss _fetch_by_name city query top_k).2 = Ok found →
  len found ≤ top_k.
Proof.
  intros Hk. unfold hybrid_search, gather, semantic_search, text_search.
  destruct (_validate_city city); [| discriminate]. cbn [fst snd].
  destruct (_run_faiss city query top_k) as [sem |];
    destruct (_fetch_by_name city query (top_k / 2)) as [txt |];
    try discriminate.
  intros [= <-]. rewrite merge_is_fuse, slice_to_nonneg by exact Hk.
  unfold len. rewrite length_take. lia.
Qed.

(** X13. A [hybrid_search] that returns gives at most [top_k] records
    and no two with the same id, whatever the two searches returned. *)
Theorem hybrid_search_respects_top_k
    (city query : pystr) (top_k : Z) (found : list FoodItem) :
  0 ≤ top_k →
  (hybrid_search _run_faiss _fetch_by_name city query top_k).2 = Ok found →
  len found ≤ top_k ∧ NoDup (ids found).
Proof.
  intros Hk H. split; [by eapply hybrid_search_length_le |].
  by eapply hybrid_search_NoDup.
Qed.

(** A failure of either search leaves [hybrid_search]: nothing is
    returned from the search that did succeed. *)
Lemma hybrid_search_propagates_failure
    (city query : pystr) (top_k : Z) (e : exn) :
  city ∈ VALID_CITIES →
  (_run_faiss city query top_k = Raise e →
   (hybrid_search _run_faiss _fetch_by_name city query top_k).2 = Raise e)
  ∧ (∀ sem, _run_faiss city query top_k = Ok sem →
            _fetch_by_name city query (top_k / 2) = Raise e →
            (hybrid_search _run_faiss _fetch_by_name city query top_k).2
              = Raise e).
Proof.
  intros Hcity. apply validate_city_ok in Hcity.
  unfold hybrid_search, gather, semantic_search, text_search.
  rewrite Hcity. cbn [fst snd].
  split; [by intros -> | by intros sem -> ->].
Qed.

(** X14. An unsupported city is refused by each of the three searches with
    [ValueError], before any retrieval call is issued. *)
Theorem searches_refuse_unknown_city (city query : pystr) (k : Z) :
  city ∉ VALID_CITIES →
  hybrid_search _run_faiss _fetch_by_name city query k
    = ([], Raise (ValueError (u "Unknown city: " ++ city)))
  ∧ text_search _fetch_by_name city query k
    = ([], Raise (ValueError (u "Unknown city: " ++ city)))
  ∧ semantic_search _run_faiss city query k
    = ([], Raise (ValueError (u "Unknown city: " ++ city))).
Proof.
  intros Hcity. apply validate_city_unknown in Hcity.
  unfold hybrid_search, text_search, semantic_search. by rewrite Hcity.
Qed.
End WithBackends.

Lemma hybrid_search_respects_top_k_witness :
  0 ≤ 2
  ∧ len [make 1 "a"; make 2 "b"] ≤ 2.
Proof.
  assert (Hk : 0 ≤ 2) by lia.
  split; [exact Hk |].
  refine (proj1 (hybrid_search_respects_top_k
                   (λ _ _ _, Ok [make 2 "b"; make 3 "c"])
                   (λ _ _ _, Ok [make 1 "a"])
                   (u "ha_noi") (u "phở") 2 _ Hk _)).
  vm_compute. reflexivity.
Defined.

Lemma hybrid_search_propagates_failure_witness :
  u "da_nang" ∈ VALID_CITIES
  ∧ (hybrid_search (λ _ _ _, Raise (ProviderError (u "FileNotFoundError")))
                   (λ _ _ _, Ok [make 1 "a"]) (u "da_nang") (u "mì") 10).2
    = Raise (ProviderError (u "FileNotFoundError")).
Proof.
  assert (H : u "da_nang" ∈ VALID_CITIES)
    by (apply (bool_decide_unpack _); vm_compute; exact I).
  split; [exact H |].
  exact (proj1 (hybrid_search_propagates_failure
                  (λ _ _ _, Raise (ProviderError (u "FileNotFoundError")))
                  (λ _ _ _, Ok [make 1 "a"]) (u "da_nang") (u "mì") 10 _ H)
           eq_refl).
Defined.

Lemma searches_refuse_unknown_city_witness :
  (u "paris" ∉ VALID_CITIES)
  ∧ hybrid_search (λ _ _ _, Ok []) (λ _ _ _, Ok []) (u "paris") (u "phở") 10
    = ([], Raise (ValueError (u "Unknown city: " ++ u "paris"))).
Proof.
  assert (H : u "paris" ∉ VALID_CITIES)
    by (apply (bool_decide_unpack _); vm_compute; exact I).
  split; [exact H |].
  exact (proj1 (searches_refuse_unknown_city (λ _ _ _, Ok []) (λ _ _ _, Ok [])
                  (u "paris") (u "phở") 10 H)).
Defined.
End FusionExtras.

(** ** Storage *)

Section StoreExtras.
Import SearchStore.

Lemma omap_ext_elem {A B} (f g : A → option B) (l : list A) :
  (∀ x, x ∈ l → f x = g x) → omap f l = omap g l.
Proof.
  induction l as [| a l IH]; intros H; [reflexivity |].
  cbn [omap list_omap]. rewrite (H a) by left.
  rewrite IH; [reflexivity |]. intros x Hx. apply H. by right.
Qed.

(** [_fetch_by_ids] reads the table once per requested id, in order. *)
Lemma fetch_by_ids_omap (store : Db.table) (l : list Z) :
  _fetch_by_ids store l = omap (λ i, _orm_to_item i <$> store !! i) l.
Proof.
  unfold _fetch_by_ids. destruct l as [| a l']; [reflexivity |].
  apply omap_ext_elem. intros i Hi. rewrite map_lookup_imap.
  destruct (store !! i) as [r |]; [| reflexivity]. cbn.
  by rewrite decide_True.
Qed.

Lemma fetch_by_ids_ids (store : Db.table) (l : list Z) :
  ids (_fetch_by_ids store l) = filter (λ i, is_Some (store !! i)) l.
Proof.
  rewrite fetch_by_ids_omap.
  induction l as [| a l IH]; [reflexivity |].
  cbn [omap list_omap]. rewrite filter_cons.
  destruct (store !! a) as [r |] eqn:E; cbn.
  - rewrite decide_True by eauto. f_equal. exact IH.
  - rewrite decide_False by (intros [? ?]; discriminate). exact IH.
Qed.

(** X15. [_fetch_by_ids] answers in the order of the request: the ids of
    its result are the requested ids that the table holds, in the order and
    with the repetitions of the request; ids the table does not hold are
    skipped; and each record is the row of its id. *)
Theorem fetch_by_ids_follows_request (store : Db.table) (l : list Z) :
  ids (_fetch_by_ids store l) = filter (λ i, is_Some (store !! i)) l
  ∧ (∀ x, x ∈ _fetch_by_ids store l →
       ∃ row, store !! id x = Some row ∧ x = _orm_to_item (id x) row).
Proof.
  split; [apply fetch_by_ids_ids |]. rewrite fetch_by_ids_omap.
  intros x Hx. apply list_elem_of_omap in Hx as (i & _ & Hi).
  destruct (store !! i) as [r |] eqn:E; [| discriminate].
  cbn in Hi. injection Hi as <-. cbn [id]. eauto.
Qed.

Section Faiss.
Variable _load_faiss : pystr → result FaissIndex.
Variable db : pystr → Db.table.

(** X16. The vector search turns index positions into storage ids by
    adding one (position 0 is id 1), drops the negative positions the index
    uses for "no match", and keeps the order of the index; so every id it
    returns is at least 1. The index is asked for no more than it holds. *)
Theorem run_faiss_maps_positions_to_ids
    (city query : pystr) (top_k : Z) (index : FaissIndex)
    (indices : list Z) :
  _load_faiss city = Ok index →
  search index (u "query: " ++ query) (Z.min top_k (ntotal index))
    = Ok indices →
  ∃ found,
    _run_faiss _load_faiss db city query top_k = Ok found
    ∧ ids found
      = filter (λ i, is_Some (db city !! i))
          ((λ p, p + 1) <$> filter (λ p, 0 ≤ p) indices)
    ∧ (∀ z, z ∈ ids found → 1 ≤ z).
Proof.
  intros Hload Hsearch. unfold _run_faiss. rewrite Hload.
  unfold mbind at 1, result_bind. rewrite Hsearch.
  unfold mbind, result_bind. eexists. split; [reflexivity |].
  pose proof (fetch_by_ids_ids (db city)
                ((λ p, p + 1) <$> filter (λ p, 0 ≤ p) indices)) as Hids.
  split; [exact Hids |].
  intros z Hz. rewrite Hids in Hz.
  apply list_elem_of_filter in Hz as [_ Hz].
  apply list_elem_of_fmap in Hz as (p & -> & Hp).
  apply list_elem_of_filter in Hp as [Hp _]. lia.
Qed.
End Faiss.

(** X17. A click on a record of a supported city adds exactly one to its
    counter, a counter that was never set counting as 0, and returns the
    new value; no other row and no other column is touched, so the record
    as the searches return it is the same. *)
Theorem increment_click_adds_one
    (city : pystr) (food_id : Z) (store : Db.table) (food : Db.Food) :
  city ∈ SearchService.VALID_CITIES →
  store !! food_id = Some food →
  (increment_click city food_id store).1
    = Ok (or_int (Db.so_lan_click food) + 1)
  ∧ Db.so_lan_click <$> (increment_click city food_id store).2 !! food_id
    = Some (Some (or_int (Db.so_lan_click food) + 1))
  ∧ _orm_to_item food_id <$> (increment_click city food_id store).2 !! food_id
    = Some (_orm_to_item food_id food)
  ∧ (∀ j, j ≠ food_id →
       (increment_click city food_id store).2 !! j = store !! j).
Proof.
  intros Hcity Hrow. apply validate_city_ok in Hcity.
  unfold increment_click, _do_increment. rewrite Hcity, Hrow. cbn [fst snd].
  split; [reflexivity |]. rewrite lookup_insert_eq.
  split; [reflexivity |]. split; [reflexivity |].
  intros j Hj. by rewrite lookup_insert_ne.
Qed.

(** X18. A click that fails changes nothing: for an unsupported city, or
    an id the table does not hold, [increment_click] raises [ValueError]
    and the table is as it was. *)
Theorem increment_click_failure_changes_nothing
    (city : pystr) (food_id : Z) (store : Db.table) :
  city ∉ SearchService.VALID_CITIES ∨ store !! food_id = None →
  (∃ msg, (increment_click city food_id store).1 = Raise (ValueError msg))
  ∧ (increment_click city food_id store).2 = store.
Proof.
  unfold increment_click, _do_increment.
  intros [Hcity | Hrow].
  - apply validate_city_unknown in Hcity. rewrite Hcity. eauto.
  - destruct (SearchService._validate_city city) eqn:E.
    + rewrite Hrow. eauto.
    + unfold SearchService._validate_city in E.
      destruct (existsb _ _); [discriminate |]. injection E as <-. eauto.
Qed.

Lemma increment_click_adds_one_aux
    (city : pystr) (food_id : Z) (store : Db.table) (food : Db.Food) :
  city ∈ SearchService.VALID_CITIES →
  store !! food_id = Some food →
  ∃ food',
    (increment_click city food_id store).2 !! food_id = Some food'
    ∧ or_int (Db.so_lan_click food') = or_int (Db.so_lan_click food) + 1.
Proof.
  intros Hcity Hrow. apply validate_city_ok in Hcity.
  unfold increment_click, _do_increment. rewrite Hcity, Hrow. cbn [fst snd].
  rewrite lookup_insert_eq. eexists. split; reflexivity.
Qed.

(** The table after [n] clicks on the same record. *)
Lemma clicks_add_up_from (city : pystr) (food_id : Z) (n : nat) :
  city ∈ SearchService.VALID_CITIES →
  ∀ (store : Db.table) (food : Db.Food),
    store !! food_id = Some food →
    or_int <$> (Db.so_lan_click
                <$> Nat.iter n (λ s, (increment_click city food_id s).2) store
                    !! food_id)
    = Some (or_int (Db.so_lan_click food) + Z.of_nat n).
Proof.
  intros Hcity. induction n as [| n IH]; intros store food Hrow.
  - cbn [Nat.iter nat_rect]. rewrite Hrow. cbn. f_equal. lia.
  - rewrite Nat.iter_succ_r.
    destruct (increment_click_adds_one_aux city food_id store food Hcity Hrow)
      as (food' & Hrow' & Hclick).
    rewrite (IH _ food' Hrow'), Hclick. f_equal. lia.
Qed.

(** X19. Clicks add up: after [n] clicks on a record of a supported city
    its counter is the former one plus [n], an unset counter counting as
    0. *)
Theorem clicks_add_up
    (city : pystr) (food_id : Z) (n : nat) (store : Db.table)
    (food : Db.Food) :
  city ∈ SearchService.VALID_CITIES →
  store !! food_id = Some food →
  or_int <$> (Db.so_lan_click
              <$> Nat.iter n (λ s, (increment_click city food_id s).2) store
                  !! food_id)
  = Some (or_int (Db.so_lan_click food) + Z.of_nat n).
Proof. intros Hcity Hrow. by apply clicks_add_up_from. Qed.

(** X20. Clicks do not show in what the searches fetch: whatever the
    click, successful or not, [_fetch_by_ids] returns the same records
    before and after it. *)
Theorem click_leaves_fetched_records
    (city : pystr) (food_id : Z) (store : Db.table) (l : list Z) :
  _fetch_by_ids (increment_click city food_id store).2 l
  = _fetch_by_ids store l.
Proof.
  rewrite !fetch_by_ids_omap. apply omap_ext_elem. intros i _.
  unfold increment_click, _do_increment.
  destruct (SearchService._validate_city city); [| reflexivity].
  destruct (store !! food_id) as [food |] eqn:E; [| reflexivity].
  cbn [snd]. destruct (decide (i = food_id)) as [-> | Hne].
  - by rewrite lookup_insert_eq, E.
  - by rewrite lookup_insert_ne.
Qed.
End StoreExtras.

Lemma run_faiss_maps_positions_to_ids_witness :
  Ok StoreSamples.small_index = Ok StoreSamples.small_index
  ∧ ∃ found,
      SearchStore._run_faiss (λ _, Ok StoreSamples.small_index)
        (λ _, StoreSamples.food_table) (u "ha_noi") (u "phở") 10 = Ok found
      ∧ ids found = [2; 1].
Proof.
  split; [reflexivity |].
  destruct (run_faiss_maps_positions_to_ids
              (λ _, Ok StoreSamples.small_index)
              (λ _, StoreSamples.food_table) (u "ha_noi") (u "phở") 10
              StoreSamples.small_index [1; -1; 0; 7] eq_refl eq_refl)
    as (found & Hrun & Hids & _).
  exists found. split; [exact Hrun |]. rewrite Hids.
  vm_compute. reflexivity.
Defined.

Lemma increment_click_adds_one_witness :
  u "ha_noi" ∈ SearchService.VALID_CITIES
  ∧ (SearchStore.increment_click (u "ha_noi") 2 StoreSamples.food_table).1
    = Ok 1.
Proof.
  assert (H : u "ha_noi" ∈ SearchService.VALID_CITIES)
    by (apply (bool_decide_unpack _); vm_compute; exact I).
  split; [exact H |].
  exact (proj1 (increment_click_adds_one (u "ha_noi") 2
                  StoreSamples.food_table
                  (StoreSamples.row "Bún Chả Lý" None) H eq_refl)).
Defined.

Lemma increment_click_failure_changes_nothing_witness :
  StoreSamples.food_table !! 99999 = None
  ∧ (SearchStore.increment_click (u "ha_noi") 99999
       StoreSamples.food_table).2
    = StoreSamples.food_table.
Proof.
  assert (H : StoreSamples.food_table !! 99999 = None)
    by (vm_compute; reflexivity).
  split; [exact H |].
  exact (proj2 (increment_click_failure_changes_nothing (u "ha_noi") 99999
                  StoreSamples.food_table (or_intror H))).
Defined.

Lemma clicks_add_up_witness :
  u "ha_noi" ∈ SearchService.VALID_CITIES
  ∧ SearchStore.or_int
    <$> (Db.so_lan_click
         <$> Nat.iter 2
               (λ s, (SearchStore.increment_click (u "ha_noi") 1 s).2)
               StoreSamples.food_table !! 1)
    = Some 12.
Proof.
  assert (H : u "ha_noi" ∈ SearchService.VALID_CITIES)
    by (apply (bool_decide_unpack _); vm_compute; exact I).
  split; [exact H |].
  exact (clicks_add_up (u "ha_noi") 1 2 StoreSamples.food_table
           (StoreSamples.row "Phở Hà Nội" (Some 10)) H eq_refl).
Defined.

(** ** The generation bridge, continued *)

Section BridgeExtras.
Import QueryRouter PromptBuilder GeminiService Spec.

(** For a tier with a ceiling, [chat] returns. *)
Lemma chat_always_returns
    (hour : Z)
    (send_message : GenerativeModel → list Content → pystr → result pystr)
    (message city : pystr) (tier : ModelTier) (max_tokens : Z)
    (history : option (list turn)) (food_context : option (list FoodItem))
    (user_address : option pystr) :
  tier ≠ local →
  ∃ text, chat hour send_message message city tier max_tokens history
               food_context user_address = Ok text.
Proof.
  intros Htier. destruct (max_tokens_of_tier tier Htier) as [Hmax Hname].
  unfold chat, _build_params, _build_model.
  rewrite Hmax, Hname. unfold mbind, result_bind.
  match goal with
  | |- context [send_message ?m ?h message] =>
      destruct (send_message m h message); eauto
  end.
Qed.

(** The tier local never reaches the provider: whatever the other
    arguments and whatever the provider would answer, [chat] and [stream]
    raise [KeyError] for it, from the table of token ceilings, before any
    call or worker is started. *)
Lemma local_tier_raises_key_error
    (hour : Z)
    (send_message : GenerativeModel → list Content → pystr → result pystr)
    (send_message_stream :
       GenerativeModel → list Content → pystr → stream_script)
    (sched : list thread) (message city : pystr) (max_tokens : Z)
    (history : option (list turn)) (food_context : option (list FoodItem))
    (user_address : option pystr) :
  chat hour send_message message city local max_tokens history food_context
       user_address = Raise (KeyError (u "local"))
  ∧ stream hour send_message_stream sched message city local max_tokens
           history food_context user_address = Raise (KeyError (u "local")).
Proof. split; reflexivity. Qed.

(** X21. When the provider's stream ends without failing, [stream] yields
    the chunks that are not empty, in order, and no error fragment: under
    every interleaving what it has yielded is a prefix of them, and it has
    returned, with all of them, once the worker has had its turns and the
    generator one turn per queue entry. *)
Theorem stream_completes_without_error
    (hour : Z)
    (send_message_stream :
       GenerativeModel → list Content → pystr → stream_script)
    (message city : pystr) (tier : ModelTier) (max_tokens : Z)
    (history : option (list turn)) (food_context : option (list FoodItem))
    (user_address : option pystr) (cs : list pystr) :
  tier ≠ local →
  (∀ model h, send_message_stream model h message = mkScript cs None) →
  (∀ sched, ∃ out fin,
     stream hour send_message_stream sched message city tier max_tokens
            history food_context user_address = Ok (out, fin)
     ∧ out `prefix_of` filter (λ c, c ≠ []) cs)
  ∧ (∀ s1 s2,
       (length cs + 4 ≤ turns Worker s1)%nat →
       (length (filter (λ c, c ≠ []) cs) + 1 ≤ turns Consumer s2)%nat →
       stream hour send_message_stream (s1 ++ s2) message city tier
              max_tokens history food_context user_address
         = Ok (filter (λ c, c ≠ []) cs, true)).
Proof.
  intros Htier Hscript.
  destruct (build_params_ok hour tier city max_tokens history food_context
              user_address Htier)
    as (system & hist & cfg & model & Hparams & Hmodel).
  unfold stream. rewrite Hparams. unfold mbind, result_bind.
  assert (Hd : delivered cs None = filter (λ c, c ≠ []) cs)
    by (unfold delivered; apply app_nil_r).
  split.
  - intros sched. eexists _, _. split; [reflexivity |]. rewrite <- Hd.
    exact (proj1 (run_safe send_message_stream tier system cfg hist message
                    model cs None Hmodel (Hscript model hist) sched)).
  - intros s1 s2 H1 H2.
    destruct (run_live send_message_stream tier system cfg hist message
                model cs None Hmodel (Hscript model hist) s1 s2 H1)
      as [Hfin Hout].
    + rewrite Hd. exact H2.
    + rewrite Hfin, Hout, Hd. reflexivity.
Qed.

(** X22. Whatever the provider does, [stream] never yields an empty
    string: empty chunks are skipped and the error fragment is not
    empty. *)
Theorem stream_never_yields_empty
    (hour : Z)
    (send_message_stream :
       GenerativeModel → list Content → pystr → stream_script)
    (sched : list thread) (message city : pystr) (tier : ModelTier)
    (max_tokens : Z) (history : option (list turn))
    (food_context : option (list FoodItem)) (user_address : option pystr)
    (out : list pystr) (fin : bool) :
  stream hour send_message_stream sched message city tier max_tokens
         history food_context user_address = Ok (out, fin) →
  [] ∉ out.
Proof.
  intros Hstream.
  assert (Htier : tier ≠ local).
  { intros ->. discriminate Hstream. }
  destruct (build_params_ok hour tier city max_tokens history food_context
              user_address Htier)
    as (system & hist & cfg & model & Hparams & Hmodel).
  unfold stream in Hstream. rewrite Hparams in Hstream.
  unfold mbind, result_bind in Hstream. injection Hstream as <- _.
  destruct (send_message_stream model hist message) as [cs f] eqn:Hs.
  destruct (run_safe send_message_stream tier system cfg hist message
              model cs f Hmodel Hs sched) as [Hp _].
  intros Hin. apply (elem_of_prefix _ _ _ Hin) in Hp.
  unfold delivered in Hp. apply elem_of_app in Hp as [Hp | Hp].
  - apply list_elem_of_filter in Hp as [Hne _]. by apply Hne.
  - destruct f as [e |]; [| by apply elem_of_nil in Hp].
    apply list_elem_of_singleton in Hp. discriminate Hp.
Qed.

Section Rank.
Variable hour : Z.
Variable send_message :
  GenerativeModel → list Content → pystr → result pystr.

Lemma rank_nearby_returns
    (items : list FoodItem) (user_address city food_type : pystr) :
  ∃ text,
    GeminiNearby.rank_nearby hour send_message items user_address city
      food_type = Ok text.
Proof.
  unfold GeminiNearby.rank_nearby. destruct items as [| r items]; [eauto |].
  by apply chat_always_returns.
Qed.

(** X23. [rank_nearby] always answers: with no candidate it returns its
    not-found text, whatever the provider would do, and with candidates it
    returns what [chat] does for the tier gemini-flash, which is the
    provider's text or the apology; it never raises. *)
Theorem rank_nearby_always_answers
    (items : list FoodItem) (user_address city food_type : pystr) :
  (items = [] →
   GeminiNearby.rank_nearby hour send_message items user_address city
     food_type
   = Ok (u "Không tìm thấy quán **" ++ food_type
         ++ u "** nào trong dữ liệu."))
  ∧ ∃ text,
      GeminiNearby.rank_nearby hour send_message items user_address city
        food_type = Ok text.
Proof.
  split; [by intros -> | apply rank_nearby_returns].
Qed.
End Rank.
End BridgeExtras.

Lemma stream_completes_without_error_witness :
  QueryRouter.gemini_pro ≠ QueryRouter.local
  ∧ GeminiService.stream 12
      (λ _ _ _, GeminiService.mkScript [u "Phở"; []; u " ngon"] None)
      (repeat GeminiService.Worker 7 ++ repeat GeminiService.Consumer 3)
      (u "quán nào ngon") (u "ha_noi") QueryRouter.gemini_pro 1500
      None None None
    = Ok ([u "Phở"; u " ngon"], true).
Proof.
  assert (H : QueryRouter.gemini_pro ≠ QueryRouter.local) by discriminate.
  split; [exact H |].
  refine (proj2 (stream_completes_without_error 12
                   (λ _ _ _, GeminiService.mkScript [u "Phở"; []; u " ngon"]
                               None)
                   (u "quán nào ngon") (u "ha_noi") QueryRouter.gemini_pro
                   1500 None None None [u "Phở"; []; u " ngon"] H
                   (λ _ _, eq_refl))
            (repeat GeminiService.Worker 7)
            (repeat GeminiService.Consumer 3) _ _).
  - vm_compute. lia.
  - vm_compute. lia.
Defined.

Lemma stream_never_yields_empty_witness :
  GeminiService.stream 12
    (λ _ _ _, GeminiService.mkScript [[]; u "Phở"; []] None)
    (repeat GeminiService.Worker 7 ++ repeat GeminiService.Consumer 3)
    (u "quán nào ngon") (u "ha_noi") QueryRouter.gemini_flash 800
    None None None
  = Ok ([u "Phở"], true)
  ∧ [] ∉ [u "Phở"].
Proof.
  assert (H : GeminiService.stream 12
                (λ _ _ _, GeminiService.mkScript [[]; u "Phở"; []] None)
                (repeat GeminiService.Worker 7
                 ++ repeat GeminiService.Consumer 3)
                (u "quán nào ngon") (u "ha_noi") QueryRouter.gemini_flash 800
                None None None
              = Ok ([u "Phở"], true))
    by (vm_compute; reflexivity).
  split; [exact H |].
  exact (stream_never_yields_empty _ _ _ _ _ _ _ _ _ _ _ _ H).
Defined.

(** ** The prompt builder, continued *)

Section PromptExtras.
Import PromptBuilder.

(** X24. Turns older than the last six never reach the provider: put in
    front of six turns, any number of older turns leaves [build_history]
    unchanged, even when some of the six are dropped for their role or
    their empty text. *)
Theorem build_history_ignores_older_turns (older recent : list turn) :
  length recent = 6%nat →
  build_history (older ++ recent) = build_history recent.
Proof.
  intros Hlen. unfold build_history. rewrite !trim_history_drop.
  rewrite length_app, Hlen.
  replace (length older + 6 - 6)%nat with (length older) by lia.
  rewrite drop_app_length. by rewrite Nat.sub_diag.
Qed.

Lemma build_history_ignores_older_turns_witness :
  length [say "user" "1"; say "model" "2"; say "system" "3";
          say "user" "4"; say "model" ""; say "user" "6"] = 6%nat
  ∧ build_history
      ([say "user" "a"; say "model" "b"]
       ++ [say "user" "1"; say "model" "2"; say "system" "3";
           say "user" "4"; say "model" ""; say "user" "6"])
    = build_history
        [say "user" "1"; say "model" "2"; say "system" "3";
         say "user" "4"; say "model" ""; say "user" "6"].
Proof.
  split; [reflexivity |].
  apply (build_history_ignores_older_turns
           [say "user" "a"; say "model" "b"]
           [say "user" "1"; say "model" "2"; say "system" "3";
            say "user" "4"; say "model" ""; say "user" "6"]).
  reflexivity.
Defined.

(** X25. Only the first ten records reach a prompt: [build_food_context]
    gives the same text for a list and for its first ten records, and so
    does the ranking prompt of [rank_nearby], whose own cut at fifteen is
    therefore without effect. *)
Theorem food_context_uses_first_ten (items : list FoodItem) :
  build_food_context items = build_food_context (take 10 items)
  ∧ ∀ address city food_type,
      GeminiNearby._build_nearby_prompt items address city food_type
      = GeminiNearby._build_nearby_prompt (take 10 items) address city
          food_type.
Proof.
  assert (Hctx : ∀ l : list FoodItem,
            build_food_context l = build_food_context (take 10 l)).
  { intros l. unfold build_food_context.
    rewrite !slice_to_nonneg by lia.
    change (Z.to_nat 10) with 10%nat. rewrite take_take, Nat.min_id.
    destruct l as [| r l]; [reflexivity |]. cbn [take]. reflexivity. }
  split; [apply Hctx |].
  intros address city food_type. unfold GeminiNearby._build_nearby_prompt.
  rewrite !slice_to_nonneg by lia.
  rewrite (Hctx (take _ items)), (Hctx (take _ (take 10 items))).
  rewrite !take_take. reflexivity.
Qed.
End PromptExtras.

(** ** The handlers *)

Section HandlerExtras.
Import QueryRouter PromptBuilder GeminiService Handlers.

Lemma meal_time_cases (hr : Z) :
  get_meal_time hr = u "Bữa sáng" ∨ get_meal_time hr = u "Bữa trưa"
  ∨ get_meal_time hr = u "Xế chiều" ∨ get_meal_time hr = u "Bữa tối"
  ∨ get_meal_time hr = u "Ăn đêm".
Proof.
  unfold get_meal_time.
  destruct ((6 <=? hr) && (hr <? 10)); [tauto |].
  destruct ((10 <=? hr) && (hr <? 14)); [tauto |].
  destruct ((14 <=? hr) && (hr <? 17)); [tauto |].
  destruct ((17 <=? hr) && (hr <? 21)); tauto.
Qed.

(** X26. [MEAL_KEYWORDS] has an entry for every label [get_meal_time] can
    give: for no hour does the suggestion search fall back on the empty
    default. *)
Theorem meal_keywords_cover_every_label (hr : Z) :
  (get_meal_time hr, dict_get MEAL_KEYWORDS (get_meal_time hr) [])
    ∈ MEAL_KEYWORDS
  ∧ dict_get MEAL_KEYWORDS (get_meal_time hr) [] ≠ [].
Proof.
  destruct (meal_time_cases hr) as [H | [H | [H | [H | H]]]]; rewrite H;
    (split; [apply (bool_decide_unpack _); vm_compute; exact I
            | vm_compute; discriminate]).
Qed.

Section Services.
Variable _run_faiss : pystr → pystr → Z → result (list FoodItem).
Variable _fetch_by_name : pystr → pystr → Z → result (list FoodItem).
Variable hour : Z.
Variable send_message :
  GenerativeModel → list Content → pystr → result pystr.
Variable set_order : list pystr → list pystr.

Local Abbreviation hybrid := (Handlers.hybrid _run_faiss _fetch_by_name).
Local Abbreviation handle_rest :=
  (Handlers.handle_rest _run_faiss _fetch_by_name hour send_message).
Local Abbreviation answer_with_gemini :=
  (Handlers.answer_with_gemini _run_faiss _fetch_by_name hour send_message).

Lemma answer_with_gemini_labels (req : ChatRequest) (d : RouteDecision)
    (resp : ChatResponse) :
  answer_with_gemini req d = Ok resp →
  model_used resp = QueryRouter.model d
  ∧ Handlers.query_type resp = QueryRouter.query_type d.
Proof.
  unfold Handlers.answer_with_gemini, _call_gemini, mbind, result_bind.
  destruct (Handlers.hybrid _ _ _ _ _); [| discriminate].
  destruct (chat _ _ _ _ _ _ _ _ _); [| discriminate].
  by intros [= <-].
Qed.

(** X27. The REST chat labels its answers consistently: the tier and the
    classification of a response are local with simple (the template
    answered), gemini-flash with complex, or gemini-pro with heavy, and no
    other pair. *)
Theorem handle_rest_labels (req : ChatRequest) (resp : ChatResponse) :
  handle_rest req = Ok resp →
  (model_used resp, Handlers.query_type resp)
    ∈ [(local, simple); (gemini_flash, complex); (gemini_pro, heavy)].
Proof.
  unfold Handlers.handle_rest, route.
  destruct (_is_heavy _); cbn [QueryRouter.model].
  { intros H. apply answer_with_gemini_labels in H as [-> ->].
    cbn. set_solver. }
  destruct (_is_complex _ _); cbn [QueryRouter.model].
  { intros H. apply answer_with_gemini_labels in H as [-> ->].
    cbn. set_solver. }
  unfold _try_simple, mbind, result_bind.
  destruct (SimpleQueryHandler.handle _ _ _) as [[[txt found] [|]] |];
    [| | discriminate].
  - intros [= <-]. cbn. set_solver.
  - intros H. apply answer_with_gemini_labels in H as [-> ->].
    cbn. set_solver.
Qed.

Lemma resp_price_raises_value_error (kw : pystr) (l : list FoodItem)
    (e : exn) :
  SimpleQueryHandler._resp_price kw l = Raise e → ∃ msg, e = ValueError msg.
Proof.
  assert (Hmin : ∀ zs e', SimpleQueryHandler.py_min zs = Raise e' →
                          ∃ msg, e' = ValueError msg).
  { intros [| z zs] e'; [intros [= <-]; eauto | discriminate]. }
  assert (Hmax : ∀ zs e', SimpleQueryHandler.py_max zs = Raise e' →
                          ∃ msg, e' = ValueError msg).
  { intros [| z zs] e'; [intros [= <-]; eauto | discriminate]. }
  unfold SimpleQueryHandler._resp_price, mbind, result_bind.
  destruct (slice_to _ 5); [discriminate |].
  destruct (SimpleQueryHandler.py_min _) eqn:Elo;
    [| intros [= <-]; exact (Hmin _ _ Elo)].
  destruct (SimpleQueryHandler.py_max _) eqn:Ehi;
    [| intros [= <-]; exact (Hmax _ _ Ehi)].
  discriminate.
Qed.

Lemma handle_ok_or_value_error (q : pystr) (fn : SimpleQueryHandler.SearchFn)
    (hr : Z) :
  (∀ kw limit, ∃ l, fn kw limit = Ok l) →
  (∃ r, SimpleQueryHandler.handle q fn hr = Ok r)
  ∨ (∃ msg, SimpleQueryHandler.handle q fn hr = Raise (ValueError msg)).
Proof.
  intros Hfn. rewrite handle_by_intent.
  destruct (SimpleQueryHandler.parse_intent q) as [[intent kw] kw2].
  unfold mbind, result_bind. destruct intent; cbn zeta.
  - destruct (Hfn kw 10) as [l ->]. eauto.
  - destruct (Hfn kw 8) as [l ->].
    destruct (SimpleQueryHandler._resp_price kw l) as [t | e] eqn:E;
      [eauto |].
    apply resp_price_raises_value_error in E as [msg ->]. eauto.
  - destruct (Hfn kw 5) as [l1 ->].
    match goal with |- context [fn ?k 5] => destruct (Hfn k 5) as [l2 ->] end.
    eauto.
  - match goal with |- context [fn ?k 8] => destruct (Hfn k 8) as [l ->] end.
    eauto.
  - eauto.
Qed.

Lemma hybrid_returns (cty q : pystr) (k : Z) :
  cty ∈ SearchService.VALID_CITIES →
  (∀ c t n, ∃ l, _run_faiss c t n = Ok l) →
  (∀ c t n, ∃ l, _fetch_by_name c t n = Ok l) →
  ∃ l, hybrid cty q k = Ok l.
Proof.
  intros Hc Hf Hn. apply validate_city_ok in Hc.
  unfold Handlers.hybrid, SearchService.hybrid_search, SearchService.gather,
    SearchService.semantic_search, SearchService.text_search.
  rewrite Hc. cbn [fst snd].
  destruct (Hf cty q k) as [sem ->]. destruct (Hn cty q (k / 2)) as [txt ->].
  eauto.
Qed.

Lemma answer_with_gemini_returns (req : ChatRequest) (d : RouteDecision) :
  QueryRouter.model d ≠ local →
  (∃ l, hybrid (city req) (message req) 10 = Ok l) →
  ∃ resp, answer_with_gemini req d = Ok resp.
Proof.
  intros Hd [l Hl].
  unfold Handlers.answer_with_gemini, _call_gemini, mbind, result_bind.
  rewrite Hl.
  destruct (chat_always_returns hour send_message (message req) (city req)
              (QueryRouter.model d) (QueryRouter.max_output_tokens d)
              (history req) (Some l) (user_address req) Hd) as [t ->].
  eauto.
Qed.

(** X28. With a supported city and a storage and an index that answer, the
    REST chat always answers, the provider's failures included, with one
    exception: the [ValueError] of the price template. In particular the
    tier local is never handed to the provider: a template miss goes on
    with the fallback decision. *)
Theorem handle_rest_answers (req : ChatRequest) :
  city req ∈ SearchService.VALID_CITIES →
  (∀ c t n, ∃ l, _run_faiss c t n = Ok l) →
  (∀ c t n, ∃ l, _fetch_by_name c t n = Ok l) →
  (∃ resp, handle_rest req = Ok resp)
  ∨ (∃ msg, handle_rest req = Raise (ValueError msg)).
Proof.
  intros Hc Hf Hn.
  pose proof (λ q k, hybrid_returns (city req) q k Hc Hf Hn) as Hh.
  unfold Handlers.handle_rest, route.
  destruct (_is_heavy _); cbn [QueryRouter.model].
  { left. apply answer_with_gemini_returns; [discriminate | apply Hh]. }
  destruct (_is_complex _ _); cbn [QueryRouter.model].
  { left. apply answer_with_gemini_returns; [discriminate | apply Hh]. }
  unfold _try_simple, mbind, result_bind.
  destruct (handle_ok_or_value_error (message req)
              (λ kw lim, hybrid (city req) kw lim) hour Hh)
    as [[[[txt found] handled] ->] | [msg ->]]; [| eauto].
  destruct handled; [eauto |].
  left. apply answer_with_gemini_returns; [discriminate | apply Hh].
Qed.

(** X29. What the nearby handler returns: at most ten records, the first
    ten candidates of a search for fifteen, no two with the same id; when
    the search finds nothing the reply is the not-found text, whatever the
    provider would say; and the handler fails only when the search does. *)
Theorem nearby_handle_results (req : NearbyRequest) :
  (∀ resp,
     Handlers.nearby_handle _run_faiss _fetch_by_name hour send_message req
       = Ok resp →
     ∃ candidates,
       hybrid (nr_city req) (query req) 15 = Ok candidates
       ∧ nb_results resp = take 10 candidates
       ∧ len (nb_results resp) ≤ 10
       ∧ NoDup (ids (nb_results resp))
       ∧ (candidates = [] →
          nb_reply resp = u "Không tìm thấy quán **" ++ query req
                          ++ u "** nào trong dữ liệu."))
  ∧ (∀ e,
       Handlers.nearby_handle _run_faiss _fetch_by_name hour send_message req
         = Raise e →
       hybrid (nr_city req) (query req) 15 = Raise e).
Proof.
  unfold Handlers.nearby_handle, mbind, result_bind.
  destruct (Handlers.hybrid _ _ _ _ _) as [cands | e0] eqn:Hh.
  - destruct (rank_nearby_returns hour send_message cands
                (nr_user_address req) (nr_city req) (query req)) as [t Ht].
    assert (Hnone : cands = [] →
              GeminiNearby.rank_nearby hour send_message cands
                (nr_user_address req) (nr_city req) (query req)
              = Ok (u "Không tìm thấy quán **" ++ query req
                    ++ u "** nào trong dữ liệu.")) by (by intros ->).
    rewrite Ht. split; [| discriminate].
    intros resp [= <-]. exists cands. cbn [nb_results nb_reply].
    rewrite slice_to_nonneg by lia. change (Z.to_nat 10) with 10%nat.
    split; [reflexivity |]. split; [reflexivity |]. split; [| split].
    + unfold len. rewrite length_take. lia.
    + refine (sublist_NoDup _ _ (hybrid_search_NoDup _ _ _ _ _ _ Hh) _).
      unfold ids. apply fmap_sublist, sublist_take.
    + intros Hc. specialize (Hnone Hc). congruence.
  - split; [discriminate |]. by intros e [= <-].
Qed.

(** X30. Outside the text mode, the search endpoint answers with the
    hybrid search, so also for the mode "semantic"; its [total] is the
    number of records returned, which is at most [limit] and holds no id
    twice. *)
Theorem search_handle_hybrid_modes
    (q cty : pystr) (limit : Z) (mode : pystr) (resp : SearchResponse) :
  mode ≠ u "text" → 0 ≤ limit →
  Handlers.search_handle _run_faiss _fetch_by_name q cty limit mode
    = Ok resp →
  hybrid cty q limit = Ok (items resp)
  ∧ total resp = len (items resp)
  ∧ total resp ≤ limit
  ∧ NoDup (ids (items resp)).
Proof.
  intros Hmode Hlimit. unfold Handlers.search_handle, mbind, result_bind.
  assert (str_eqb mode (u "text") = false) as ->.
  { unfold str_eqb. by apply bool_decide_eq_false. }
  destruct (Handlers.hybrid _ _ _ _ _) as [l |] eqn:Hh; [| discriminate].
  intros [= <-]. cbn [items total].
  split; [reflexivity |]. split; [reflexivity |]. split.
  - by eapply hybrid_search_length_le.
  - by eapply hybrid_search_NoDup.
Qed.
End Services.
End HandlerExtras.

Lemma handle_rest_labels_witness :
  ∃ resp,
    Handlers.handle_rest (λ _ _ _, Ok [make 1 "a"]) (λ _ _ _, Ok []) 12
      (λ _ _ _, Raise (ProviderError (u "Timeout")))
      (Handlers.mkChatRequest (u "quán nào ngon và rẻ") (u "ha_noi")
         (Some []) None) = Ok resp
    ∧ (Handlers.model_used resp, Handlers.query_type resp)
        ∈ [(QueryRouter.local, QueryRouter.simple);
           (QueryRouter.gemini_flash, QueryRouter.complex);
           (QueryRouter.gemini_pro, QueryRouter.heavy)].
Proof.
  eexists. split; [vm_compute; reflexivity |].
  apply (handle_rest_labels (λ _ _ _, Ok [make 1 "a"]) (λ _ _ _, Ok []) 12
           (λ _ _ _, Raise (ProviderError (u "Timeout")))
           (Handlers.mkChatRequest (u "quán nào ngon và rẻ") (u "ha_noi")
              (Some []) None)).
  vm_compute. reflexivity.
Defined.

Lemma handle_rest_answers_witness :
  u "ha_noi" ∈ SearchService.VALID_CITIES
  ∧ ((∃ resp,
        Handlers.handle_rest (λ _ _ _, Ok [priced 1 0 0]) (λ _ _ _, Ok [])
          12 (λ _ _ _, Raise (ProviderError (u "Timeout")))
          (Handlers.mkChatRequest (u "giá phở") (u "ha_noi") None None)
        = Ok resp)
     ∨ (∃ msg,
          Handlers.handle_rest (λ _ _ _, Ok [priced 1 0 0]) (λ _ _ _, Ok [])
            12 (λ _ _ _, Raise (ProviderError (u "Timeout")))
            (Handlers.mkChatRequest (u "giá phở") (u "ha_noi") None None)
          = Raise (ValueError msg))).
Proof.
  assert (H : u "ha_noi" ∈ SearchService.VALID_CITIES)
    by (apply (bool_decide_unpack _); vm_compute; exact I).
  split; [exact H |].
  apply (handle_rest_answers (λ _ _ _, Ok [priced 1 0 0]) (λ _ _ _, Ok [])
           12 (λ _ _ _, Raise (ProviderError (u "Timeout")))
           (Handlers.mkChatRequest (u "giá phở") (u "ha_noi") None None) H);
    intros; eexists; reflexivity.
Defined.

Lemma search_handle_hybrid_modes_witness :
  u "semantic" ≠ u "text" ∧ 0 ≤ 2
  ∧ Handlers.total
      (Handlers.mkSearchResponse [make 1 "a"; make 2 "b"] 2 (u "ha_noi"))
    ≤ 2.
Proof.
  assert (Hmode : u "semantic" ≠ u "text") by (vm_compute; discriminate).
  assert (Hlimit : 0 ≤ 2) by lia.
  split; [exact Hmode |]. split; [exact Hlimit |].
  refine (proj1 (proj2 (proj2
            (search_handle_hybrid_modes
               (λ _ _ _, Ok [make 2 "b"; make 3 "c"])
               (λ _ _ _, Ok [make 1 "a"])
               (u "phở") (u "ha_noi") 2 (u "semantic") _ Hmode Hlimit _)))).
  vm_compute. reflexivity.
Defined.
